(** * treeherder: the [cycle_data] management command

    A shallow embedding of
    [treeherder/model/management/commands/cycle_data.py] and the
    verification of its retention properties.

    Conventions of the embedding.
    - Python [int]s are [Z].  A [datetime] is the number of microseconds
      since the epoch and a [timedelta] a number of microseconds, both in
      [Z].  The constructor [datetime.timedelta(days=...)] refuses what is
      out of its range, as in Python; the range of [datetime] values, which
      the subtractions in the strategies could leave, is not part of the
      model.
    - A database table is the list of its rows in storage order; a Django
      [QuerySet] evaluates to a list of rows.
    - A method is a computation in the monad [M]: it threads the state and
      ends with a value, with a raised exception, or without fuel (the
      only unbounded loop is the [while] of [prune]).  What a computation
      did to the state before it raised is kept, as in Python. *)

From Stdlib Require Import ZArith List String Ascii Bool Lia DecimalString Permutation.
Import ListNotations.
Open Scope Z_scope.

(** ** Python values and exceptions *)

Definition string_of_Z (z : Z) : string := NilZero.string_of_int (Z.to_int z).

(** The exception classes the command can meet.  [except C] is modelled on
    the class itself: none of these classes derives from another one. *)
Inductive exn_class : Type :=
| IndexError
| AssertionError
| ValueError
| DoesNotExist
| MultipleObjectsReturned
| OperationalError
| ProgrammingError
| MaxRuntimeExceeded
| OtherException (name : string).

Record exn : Type := { exn_cls : exn_class; exn_msg : string }.

Definition exn_class_eqb (a b : exn_class) : bool :=
  match a, b with
  | IndexError, IndexError
  | AssertionError, AssertionError
  | ValueError, ValueError
  | DoesNotExist, DoesNotExist
  | MultipleObjectsReturned, MultipleObjectsReturned
  | OperationalError, OperationalError
  | ProgrammingError, ProgrammingError
  | MaxRuntimeExceeded, MaxRuntimeExceeded => true
  | OtherException x, OtherException y => String.eqb x y
  | _, _ => false
  end.

Definition isinstance (e : exn) (c : exn_class) : bool := exn_class_eqb (exn_cls e) c.

Inductive outcome (A : Type) : Type :=
| Ret (a : A)
| Raise (e : exn)
| OutOfFuel.
Arguments Ret {A} a.
Arguments Raise {A} e.
Arguments OutOfFuel {A}.

(** ** The state-and-exception monad *)

Definition M (S A : Type) : Type := S -> outcome A * S.

Definition ret {S A : Type} (a : A) : M S A := fun s => (Ret a, s).
Definition raise {S A : Type} (e : exn) : M S A := fun s => (Raise e, s).
Definition out_of_fuel {S A : Type} : M S A := fun s => (OutOfFuel, s).

Definition bind {S A B : Type} (m : M S A) (k : A -> M S B) : M S B :=
  fun s =>
    match m s with
    | (Ret a, s') => k a s'
    | (Raise e, s') => (Raise e, s')
    | (OutOfFuel, s') => (OutOfFuel, s')
    end.

(** [try: body  except c as e: handler e] *)
Definition try_except {S A : Type} (body : M S A) (c : exn_class) (handler : exn -> M S A)
  : M S A :=
  fun s =>
    match body s with
    | (Raise e, s') => if isinstance e c then handler e s' else (Raise e, s')
    | r => r
    end.

Definition gets {S A : Type} (f : S -> A) : M S A := fun s => (Ret (f s), s).
Definition modify {S : Type} (f : S -> S) : M S unit := fun s => (Ret tt, f s).

(** A computation on the world run by a method of an object [O]. *)
Definition on_world {O W A : Type} (m : M W A) : M (O * W) A :=
  fun s =>
    let (r, w') := m (snd s) in (r, (fst s, w')).

Declare Scope py_scope.
Delimit Scope py_scope with py.
Notation "x <- c1 ;; c2" := (bind c1 (fun x => c2))
  (at level 100, c1 at next level, right associativity) : py_scope.
Notation "c1 ;;; c2" := (bind c1 (fun _ => c2))
  (at level 100, right associativity) : py_scope.
Open Scope py_scope.

(** ** The database *)

Record PerformanceDatum : Type :=
  { pd_id : Z; pd_repository_id : Z; pd_push_timestamp : Z }.

Record Repository : Type := { repo_id : Z; repo_name : string }.

Record Job : Type :=
  { job_id : Z; job_type_id : Z; job_group_id : Z; machine_id : Z }.

(** A row of one of the ancillary tables; only its [id] is read. *)
Record Ancillary : Type := { anc_id : Z; anc_name : string }.

Inductive model : Type := JobType | JobGroup | Machine.

Definition model___name__ (m : model) : string :=
  match m with
  | JobType => "JobType"
  | JobGroup => "JobGroup"
  | Machine => "Machine"
  end.

Record database : Type :=
  { performance_datum : list PerformanceDatum;
    repository : list Repository;
    job : list Job;
    job_type : list Ancillary;
    job_group : list Ancillary;
    machine : list Ancillary }.

Definition objects (m : model) (d : database) : list Ancillary :=
  match m with
  | JobType => job_type d
  | JobGroup => job_group d
  | Machine => machine d
  end.

Definition set_performance_datum (t : list PerformanceDatum) (d : database) : database :=
  {| performance_datum := t; repository := repository d; job := job d;
     job_type := job_type d; job_group := job_group d; machine := machine d |}.

Definition set_objects (m : model) (t : list Ancillary) (d : database) : database :=
  match m with
  | JobType =>
      {| performance_datum := performance_datum d; repository := repository d; job := job d;
         job_type := t; job_group := job_group d; machine := machine d |}
  | JobGroup =>
      {| performance_datum := performance_datum d; repository := repository d; job := job d;
         job_type := job_type d; job_group := t; machine := machine d |}
  | Machine =>
      {| performance_datum := performance_datum d; repository := repository d; job := job d;
         job_type := job_type d; job_group := job_group d; machine := t |}
  end.

(** The statements that delete rows. *)
Inductive statement : Type :=
| DELETE_performance_datum (repository_id : option Z) (push_timestamp : Z) (limit : Z)
| DELETE_id__in (m : model) (ids : list Z).

Inductive level : Type := WARNING | ERROR.

(** The world of one run: the store, the two observable traces, the wall
    clock and the time a deleting statement takes. *)
Record world : Type :=
  { db : database;
    log : list (level * string);
    executed : list statement;
    clock : Z;
    latency : Z }.

Definition set_db (d : database) (w : world) : world :=
  {| db := d; log := log w; executed := executed w; clock := clock w; latency := latency w |}.

Definition logger_log (l : level) (msg : string) : M world unit :=
  modify (fun w =>
    {| db := db w; log := log w ++ [(l, msg)]; executed := executed w;
       clock := clock w; latency := latency w |}).

Definition logger_warning : string -> M world unit := logger_log WARNING.
Definition logger_error : string -> M world unit := logger_log ERROR.

Definition datetime_now : M world Z := gets clock.

Definition MICROSECONDS_PER_DAY : Z := 86400000000.
Definition timedelta_days (days : Z) : Z := days * MICROSECONDS_PER_DAY.
Definition timedelta_weeks (weeks : Z) : Z := timedelta_days (7 * weeks).
Definition timedelta_hours (hours : Z) : Z := hours * 3600000000.

Definition OverflowError : exn_class := OtherException "OverflowError".

Definition TIMEDELTA_MAX_DAYS : Z := 999999999.

(** [datetime.timedelta(days=days)]: the days of a [timedelta] have a
    magnitude of at most 999999999; beyond the range of a C [int] the
    conversion fails first. *)
Definition datetime_timedelta {S : Type} (days : Z) : M S Z :=
  if Z.abs days <=? TIMEDELTA_MAX_DAYS then ret (timedelta_days days)
  else if (-2147483648 <=? days) && (days <=? 2147483647)
  then raise {| exn_cls := OverflowError;
                exn_msg := "days=" ++ string_of_Z days
                           ++ "; must have magnitude <= 999999999" |}
  else raise {| exn_cls := OverflowError;
                exn_msg := "Python int too large to convert to C int" |}.

(** ** Django query sets *)

Fixpoint insert_by {A : Type} (key : A -> Z) (x : A) (l : list A) : list A :=
  match l with
  | [] => [x]
  | y :: l' => if key x <=? key y then x :: l else y :: insert_by key x l'
  end.

(** [order_by('f')]; [order_by('-f')] is [order_by] on the negated key. *)
Definition order_by {A : Type} (key : A -> Z) (l : list A) : list A :=
  fold_right (insert_by key) [] l.

(** [qs[0]] *)
Definition qs_first {S A : Type} (qs : list A) : M S A :=
  match qs with
  | [] => raise {| exn_cls := IndexError; exn_msg := "list index out of range" |}
  | x :: _ => ret x
  end.

(** [qs[:n]]: a query set refuses a negative bound. *)
Definition qs_slice_to {S A : Type} (qs : list A) (n : Z) : M S (list A) :=
  if n <? 0
  then raise {| exn_cls := AssertionError; exn_msg := "Negative indexing is not supported." |}
  else ret (firstn (Z.to_nat n) qs).

(** [qs[n:]] *)
Definition qs_slice_from {S A : Type} (qs : list A) (n : Z) : M S (list A) :=
  if n <? 0
  then raise {| exn_cls := AssertionError; exn_msg := "Negative indexing is not supported." |}
  else ret (skipn (Z.to_nat n) qs).

(** [len(x) or y] on integers *)
Definition py_or (x y : Z) : Z := if x =? 0 then y else x.

Definition len {A : Type} (l : list A) : Z := Z.of_nat (List.length l).

(** The position a Python list slice bound denotes in a list of [n] items. *)
Definition slice_index (n : nat) (k : Z) : nat :=
  if k <? 0 then Z.to_nat (Z.max 0 (Z.of_nat n + k)) else Nat.min n (Z.to_nat k).

Definition list_slice_to {A : Type} (l : list A) (k : Z) : list A :=
  firstn (slice_index (List.length l) k) l.
Definition list_slice_from {A : Type} (l : list A) (k : Z) : list A :=
  skipn (slice_index (List.length l) k) l.

(** [DELETE ... WHERE p LIMIT n]: the first [n] rows that satisfy [p], in
    storage order, go. *)
Fixpoint delete_limit {A : Type} (p : A -> bool) (n : nat) (l : list A) : list A :=
  match l with
  | [] => []
  | x :: l' =>
      match n with
      | O => l
      | S n' => if p x then delete_limit p n' l' else x :: delete_limit p n l'
      end
  end.

Definition where_clause (repository_id : option Z) (push_timestamp : Z)
  (r : PerformanceDatum) : bool :=
  match repository_id with
  | Some i => (pd_repository_id r =? i) && (pd_push_timestamp r <? push_timestamp)
  | None => pd_push_timestamp r <? push_timestamp
  end.

Definition run_statement (s : statement) (d : database) : database :=
  match s with
  | DELETE_performance_datum repo ts limit =>
      set_performance_datum
        (delete_limit (where_clause repo ts) (Z.to_nat limit) (performance_datum d)) d
  | DELETE_id__in m ids =>
      set_objects m
        (filter (fun a => negb (existsb (Z.eqb (anc_id a)) ids)) (objects m d)) d
  end.

Definition record_statement (s : statement) : M world unit :=
  modify (fun w =>
    {| db := run_statement s (db w); log := log w; executed := executed w ++ [s];
       clock := clock w + latency w; latency := latency w |}).

(** [using.execute(sql, params)] for the two [DELETE FROM performance_datum]
    statements of the strategies; MySQL rejects a negative [LIMIT]. *)
Definition cursor_execute (repository_id : option Z) (push_timestamp limit : Z)
  : M world unit :=
  if limit <? 0
  then raise {| exn_cls := ProgrammingError; exn_msg := "You have an error in your SQL syntax" |}
  else record_statement (DELETE_performance_datum repository_id push_timestamp limit).

(** [Repository.objects.get(name=n)] *)
Definition Repository_objects_get (n : string) : M world Repository :=
  rs <- gets (fun w => filter (fun r => String.eqb (repo_name r) n) (repository (db w))) ;;
  match rs with
  | [] => raise {| exn_cls := DoesNotExist;
                   exn_msg := "Repository matching query does not exist." |}
  | [r] => ret r
  | _ => raise {| exn_cls := MultipleObjectsReturned;
                  exn_msg := "get() returned more than one Repository" |}
  end.

(** ** Removal strategies *)

Module MainRemovalStrategy.

Record t : Type :=
  { _cycle_interval : Z;
    _chunk_size : Z;
    _max_timestamp : Z }.

Definition __init__ (cycle_interval chunk_size : Z) : M world t :=
  now <- datetime_now ;;
  ret {| _cycle_interval := cycle_interval;
         _chunk_size := chunk_size;
         _max_timestamp := now - cycle_interval |}.

Definition _find_ideal_chunk_size (self : t) : M world Z :=
  rows <- gets (fun w => performance_datum (db w)) ;;
  newest <- qs_first
    (order_by (fun r => - pd_id r)
       (filter (fun r => pd_push_timestamp r >? _max_timestamp self) rows)) ;;
  let max_id := pd_id newest in
  older_ids <- qs_slice_to
    (order_by pd_id
       (filter (fun r => (pd_push_timestamp r <=? _max_timestamp self)
                         && (pd_id r <=? max_id)) rows))
    (_chunk_size self) ;;
  ret (py_or (len older_ids) (_chunk_size self)).

Definition remove (self : t) : M world unit :=
  chunk_size <- _find_ideal_chunk_size self ;;
  cursor_execute None (_max_timestamp self) chunk_size.

End MainRemovalStrategy.

Module TryDataRemoval.

Record t : Type :=
  { _cycle_interval : Z;
    _chunk_size : Z;
    _max_timestamp : Z;
    __try_repo_id : option Z }.

Definition set___try_repo_id (v : option Z) (self : t) : t :=
  {| _cycle_interval := _cycle_interval self;
     _chunk_size := _chunk_size self;
     _max_timestamp := _max_timestamp self;
     __try_repo_id := v |}.

Definition __init__ (chunk_size : Z) : M world t :=
  let cycle_interval := timedelta_weeks 4 in
  now <- datetime_now ;;
  ret {| _cycle_interval := cycle_interval;
         _chunk_size := chunk_size;
         _max_timestamp := now - cycle_interval;
         __try_repo_id := None |}.

(** The cached property [try_repo]; it runs on the object and the world. *)
Definition try_repo : M (t * world) Z :=
  cached <- gets (fun s : t * world => __try_repo_id (fst s)) ;;
  match cached with
  | Some i => ret i
  | None =>
      r <- on_world (Repository_objects_get "try") ;;
      modify (fun s : t * world => (set___try_repo_id (Some (repo_id r)) (fst s), snd s)) ;;;
      ret (repo_id r)
  end.

Definition _find_ideal_chunk_size : M (t * world) Z :=
  self <- gets (fun s : t * world => fst s) ;;
  repo <- try_repo ;;
  rows <- gets (fun s : t * world => performance_datum (db (snd s))) ;;
  newest <- qs_first
    (order_by (fun r => - pd_id r)
       (filter (fun r => (pd_push_timestamp r >? _max_timestamp self)
                         && (pd_repository_id r =? repo)) rows)) ;;
  let max_id := pd_id newest in
  repo' <- try_repo ;;
  older_ids <- qs_slice_to
    (order_by pd_id
       (filter (fun r => (pd_push_timestamp r <=? _max_timestamp self)
                         && (pd_id r <=? max_id)
                         && (pd_repository_id r =? repo')) rows))
    (_chunk_size self) ;;
  ret (py_or (len older_ids) (_chunk_size self)).

Definition remove : M (t * world) unit :=
  chunk_size <- _find_ideal_chunk_size ;;
  repo <- try_repo ;;
  self <- gets (fun s : t * world => fst s) ;;
  on_world (cursor_execute (Some repo) (_max_timestamp self) chunk_size).

End TryDataRemoval.

(** The strategies are duck typed: anything with a [remove]. *)
Inductive removal_strategy : Type :=
| Main (s : MainRemovalStrategy.t)
| Try (s : TryDataRemoval.t).

Definition removal_strategy_remove : M (removal_strategy * world) unit :=
  fun s =>
    match fst s with
    | Main m => on_world (MainRemovalStrategy.remove m) s
    | Try t =>
        match TryDataRemoval.remove (t, snd s) with
        | (r, (t', w')) => (r, (Try t', w'))
        end
    end.


(** ** Data cyclers *)

Definition TREEHERDER : string := "treeherder".
Definition PERFHERDER : string := "perfherder".
Definition TREEHERDER_SUBCOMMAND : string := "from:treeherder".
Definition PERFHERDER_SUBCOMMAND : string := "from:perfherder".
Definition MINIMUM_PERFHERDER_EXPIRE_INTERVAL : Z := 365.

Module DataCycler.

Record t : Type :=
  { cycle_interval : Z;
    chunk_size : Z;
    sleep_time : Z;
    is_debug : bool }.

(** The attributes of the object when [__init__] has returned. *)
Definition attributes (days chunk_size sleep_time : Z) (is_debug : option bool) : t :=
  {| cycle_interval := timedelta_days days;
     chunk_size := chunk_size;
     sleep_time := sleep_time;
     is_debug := match is_debug with Some b => b | None => false end |}.

Definition __init__ (days chunk_size sleep_time : Z) (is_debug : option bool)
  : M world t :=
  cycle_interval <- datetime_timedelta days ;;
  ret {| cycle_interval := cycle_interval;
         chunk_size := chunk_size;
         sleep_time := sleep_time;
         is_debug := match is_debug with Some b => b | None => false end |}.

End DataCycler.

(** What [len] and slicing see of [unused_ids]: the evaluated query set
    the first time round the loop, a plain list after that. *)
Inductive id_sequence : Type :=
| QuerySet (result_cache : list Z)
| PyList (l : list Z).

Definition items (s : id_sequence) : list Z :=
  match s with
  | QuerySet l => l
  | PyList l => l
  end.

Definition slice_to (s : id_sequence) (k : Z) : M world (list Z) :=
  match s with
  | QuerySet l => qs_slice_to l k
  | PyList l => ret (list_slice_to l k)
  end.

Definition slice_from (s : id_sequence) (k : Z) : M world (list Z) :=
  match s with
  | QuerySet l => qs_slice_from l k
  | PyList l => ret (list_slice_from l k)
  end.

Module TreeherderCycler.

Definition source : string := "Treeherder".

(** The [while len(unused_ids)] loop of [prune]. *)
Fixpoint prune_loop (fuel : nat) (self : DataCycler.t) (m : model)
  (unused_ids : id_sequence) : M world unit :=
  if len (items unused_ids) =? 0 then ret tt
  else
    match fuel with
    | O => out_of_fuel
    | S fuel' =>
        delete_ids <- slice_to unused_ids (DataCycler.chunk_size self) ;;
        logger_warning ("deleting " ++ string_of_Z (len delete_ids) ++ " of "
                          ++ string_of_Z (len (items unused_ids))) ;;;
        record_statement (DELETE_id__in m delete_ids) ;;;
        rest <- slice_from unused_ids (DataCycler.chunk_size self) ;;
        prune_loop fuel' self m (PyList rest)
    end.

(** [used_ids] and [unused_ids] of [prune], as the store answers them. *)
Definition used_ids (id_name : Job -> Z) (d : database) : list Z :=
  nodup Z.eq_dec (map id_name (job d)).

Definition unused_ids (id_name : Job -> Z) (m : model) (d : database) : list Z :=
  map anc_id
    (filter (fun a => negb (existsb (Z.eqb (anc_id a)) (used_ids id_name d))) (objects m d)).

Definition prune (fuel : nat) (self : DataCycler.t) (id_name : Job -> Z) (m : model)
  : M world unit :=
  logger_warning ("Pruning " ++ model___name__ m ++ "s") ;;;
  unused <- gets (fun w => unused_ids id_name m (db w)) ;;
  logger_warning ("Removing " ++ string_of_Z (len unused) ++ " records from "
                    ++ model___name__ m) ;;;
  prune_loop fuel self m (QuerySet unused).

Definition remove_leftovers (fuel : nat) (self : DataCycler.t) : M world unit :=
  logger_warning "Pruning ancillary data: job types, groups and machines" ;;;
  prune fuel self job_type_id JobType ;;;
  prune fuel self job_group_id JobGroup ;;;
  prune fuel self machine_id Machine.

Section WithJobManager.

(** [Job.objects.cycle_data] is defined in [treeherder/model/models.py]. *)
Variable Job_objects_cycle_data : Z -> Z -> Z -> M world Z.

Definition cycle (fuel : nat) (self : DataCycler.t) : M world unit :=
  logger_warning "Cycling jobs across all repositories" ;;;
  try_except
    (rs_deleted <- Job_objects_cycle_data (DataCycler.cycle_interval self)
                     (DataCycler.chunk_size self) (DataCycler.sleep_time self) ;;
     logger_warning ("Deleted " ++ string_of_Z rs_deleted ++ " jobs"))
    OperationalError
    (fun e => logger_error ("Error running cycle_data: " ++ exn_msg e)) ;;;
  remove_leftovers fuel self.

End WithJobManager.

End TreeherderCycler.

Module PerfherderCycler.

Definition source : string := "Perfherder".
Definition max_runtime : Z := timedelta_hours 23.

Section WithSettings.

(** [settings.SITE_HOSTNAME] of the Django configuration. *)
Variable SITE_HOSTNAME : string.

Definition __init__ (days chunk_size sleep_time : Z) (is_debug : option bool)
  : M world DataCycler.t :=
  self <- DataCycler.__init__ days chunk_size sleep_time is_debug ;;
  if (days <? MINIMUM_PERFHERDER_EXPIRE_INTERVAL)
     && negb (String.eqb SITE_HOSTNAME "treeherder-prototype2.herokuapp.com")
  then raise {| exn_cls := ValueError;
                exn_msg := "Cannot remove performance data that is more recent than "
                           ++ string_of_Z MINIMUM_PERFHERDER_EXPIRE_INTERVAL ++ " days" |}
  else ret self.

End WithSettings.

(** The list bound to [removal_strategies] in [cycle]. *)
Definition removal_strategies (self : DataCycler.t) : M world (list removal_strategy) :=
  main <- MainRemovalStrategy.__init__ (DataCycler.cycle_interval self)
            (DataCycler.chunk_size self) ;;
  try_data <- TryDataRemoval.__init__ (DataCycler.chunk_size self) ;;
  ret [Main main; Try try_data].

Section WithPerformanceDatumManager.

(** [PerformanceDatum.objects.cycle_data] is defined in
    [treeherder/perf/models.py]; its arguments are the strategies,
    [started_at] and [max_runtime] (the logger lives in the world). *)
Variable PerformanceDatum_objects_cycle_data :
  list removal_strategy -> Z -> Z -> M world unit.

Definition cycle (self : DataCycler.t) : M world unit :=
  started_at <- datetime_now ;;
  strategies <- removal_strategies self ;;
  try_except
    (PerformanceDatum_objects_cycle_data strategies started_at max_runtime)
    MaxRuntimeExceeded
    (fun ex => logger_warning (exn_msg ex)).

End WithPerformanceDatumManager.

End PerfherderCycler.

(** ** The command *)

(** [s.split(':')] *)
Fixpoint split_colon (s : string) : list string :=
  match s with
  | EmptyString => [EmptyString]
  | String c s' =>
      if Ascii.eqb c ":"%char then EmptyString :: split_colon s'
      else
        match split_colon s' with
        | [] => [String c EmptyString]
        | h :: t => String c h :: t
        end
  end.

Module Command.

Record options : Type :=
  { is_debug : bool;
    days : Z;
    chunk_size : Z;
    sleep_time : Z;
    data_source : option string }.

Inductive cycler_class : Type := TreeherderCycler_cls | PerfherderCycler_cls.

Record data_cycler : Type := { cls : cycler_class; self : DataCycler.t }.

Definition CYCLER_CLASSES (key : string) : option cycler_class :=
  if String.eqb key TREEHERDER then Some TreeherderCycler_cls
  else if String.eqb key PERFHERDER then Some PerfherderCycler_cls
  else None.

Definition source (c : data_cycler) : string :=
  match cls c with
  | TreeherderCycler_cls => TreeherderCycler.source
  | PerfherderCycler_cls => PerfherderCycler.source
  end.

Section WithCollaborators.

Variable SITE_HOSTNAME : string.
Variable Job_objects_cycle_data : Z -> Z -> Z -> M world Z.
Variable PerformanceDatum_objects_cycle_data :
  list removal_strategy -> Z -> Z -> M world unit.

Definition fabricate_data_cycler (o : options) : M world data_cycler :=
  let data_source :=
    match data_source o with
    | None => TREEHERDER_SUBCOMMAND
    | Some EmptyString => TREEHERDER_SUBCOMMAND
    | Some s => s
    end in
  match split_colon data_source with
  | _ :: key :: _ =>
      match CYCLER_CLASSES key with
      | None => raise {| exn_cls := OtherException "KeyError";
                         exn_msg := "'" ++ key ++ "'" |}
      | Some TreeherderCycler_cls =>
          c <- DataCycler.__init__ (days o) (chunk_size o) (sleep_time o)
                 (Some (is_debug o)) ;;
          ret {| cls := TreeherderCycler_cls; self := c |}
      | Some PerfherderCycler_cls =>
          c <- PerfherderCycler.__init__ SITE_HOSTNAME (days o) (chunk_size o)
                 (sleep_time o) (Some (is_debug o)) ;;
          ret {| cls := PerfherderCycler_cls; self := c |}
      end
  | _ => raise {| exn_cls := IndexError; exn_msg := "list index out of range" |}
  end.

Definition cycle (fuel : nat) (c : data_cycler) : M world unit :=
  match cls c with
  | TreeherderCycler_cls => TreeherderCycler.cycle Job_objects_cycle_data fuel (self c)
  | PerfherderCycler_cls =>
      PerfherderCycler.cycle PerformanceDatum_objects_cycle_data (self c)
  end.

Definition handle (fuel : nat) (o : options) : M world unit :=
  logger_warning ("Cycle interval... " ++ string_of_Z (days o) ++ " days") ;;;
  data_cycler <- fabricate_data_cycler o ;;
  logger_warning ("Cycling " ++ source data_cycler ++ " data...") ;;;
  cycle fuel data_cycler.

End WithCollaborators.

End Command.

(** ** Managers to run the cyclers against *)

(** Modelled from the spec: [PerformanceDatum.objects.cycle_data], which is
    defined in [treeherder/perf/models.py].  Each strategy is looped over:
    the runtime guard is checked before each chunked deletion, it signals
    the max-runtime-exceeded condition when the time elapsed since
    [started_at] exceeds [max_runtime], and the loop of a strategy ends
    when a deletion removed no row. *)
Fixpoint strategy_loop (fuel : nat) (started_at max_runtime : Z)
  : M (removal_strategy * world) unit :=
  match fuel with
  | O => out_of_fuel
  | S fuel' =>
      now <- on_world datetime_now ;;
      if now - started_at >? max_runtime
      then raise {| exn_cls := MaxRuntimeExceeded; exn_msg := "Max runtime for performance data cycling exceeded" |}
      else
        before <- gets (fun s : removal_strategy * world => len (performance_datum (db (snd s)))) ;;
        removal_strategy_remove ;;;
        after <- gets (fun s : removal_strategy * world => len (performance_datum (db (snd s)))) ;;
        if before - after =? 0 then ret tt
        else strategy_loop fuel' started_at max_runtime
  end.

Fixpoint guarded_cycle_data (fuel : nat) (strategies : list removal_strategy)
  (started_at max_runtime : Z) : M world unit :=
  match strategies with
  | [] => ret tt
  | s :: rest =>
      fun w =>
        match strategy_loop fuel started_at max_runtime (s, w) with
        | (Ret _, (_, w')) => guarded_cycle_data fuel rest started_at max_runtime w'
        | (Raise e, (_, w')) => (Raise e, w')
        | (OutOfFuel, (_, w')) => (OutOfFuel, w')
        end
  end.

(** A job manager whose connection drops during the bulk delete. *)
Definition failing_cycle_data (cycle_interval chunk_size sleep_time : Z) : M world Z :=
  raise {| exn_cls := OperationalError; exn_msg := "(2006, 'MySQL server has gone away')" |}.

(** ** Stores and worlds to evaluate the command on *)

Definition IndexError_raised : exn :=
  {| exn_cls := IndexError; exn_msg := "list index out of range" |}.

Definition try_repository : Repository := {| repo_id := 4; repo_name := "try" |}.
Definition autoland_repository : Repository := {| repo_id := 77; repo_name := "autoland" |}.

Definition store (rows : list PerformanceDatum) : database :=
  {| performance_datum := rows;
     repository := [try_repository; autoland_repository];
     job := []; job_type := []; job_group := []; machine := [] |}.

(** A quiet world on store [d] whose clock reads [now]. *)
Definition world_at (d : database) (now : Z) : world :=
  {| db := d; log := []; executed := []; clock := now; latency := 0 |}.

(** One day, in microseconds, after 2000 days. *)
Definition day (n : Z) : Z := timedelta_days (2000 + n).

Definition datum (id repository_id push_timestamp : Z) : PerformanceDatum :=
  {| pd_id := id; pd_repository_id := repository_id; pd_push_timestamp := push_timestamp |}.

(** [n] successive [remove] calls on one strategy object.  Between two
    calls the rest of the system acts on the world: rows are inserted, time
    passes. *)
Fixpoint remove_calls (n : nat) (between : nat -> world -> world)
  (st : removal_strategy * world) : removal_strategy * world :=
  match n with
  | O => st
  | S n' =>
      let st' := remove_calls n' between st in
      snd (removal_strategy_remove (fst st', between n' (snd st')))
  end.

(** Computations whose final state is related to the initial one, however
    they end. *)
Definition preserves {S A : Type} (R : S -> S -> Prop) (m : M S A) : Prop :=
  forall s, R s (snd (m s)).

(** What the methods of the scoped strategy leave alone: the world and the
    cutoff of the object. *)
Definition same_world_and_cutoff (s s' : TryDataRemoval.t * world) : Prop :=
  snd s' = snd s
  /\ TryDataRemoval._max_timestamp (fst s') = TryDataRemoval._max_timestamp (fst s).

Definition prototype_hostname : string := "treeherder-prototype2.herokuapp.com".

Definition floor_error : exn :=
  {| exn_cls := ValueError;
     exn_msg := "Cannot remove performance data that is more recent than 365 days" |}.

Definition perfherder_options (days : Z) : Command.options :=
  {| Command.is_debug := false;
     Command.days := days;
     Command.chunk_size := 100;
     Command.sleep_time := 0;
     Command.data_source := Some PERFHERDER_SUBCOMMAND |}.


(** The column of [Job] that [remove_leftovers] pairs with each model. *)
Definition foreign_key (m : model) : Job -> Z :=
  match m with
  | JobType => job_type_id
  | JobGroup => job_group_id
  | Machine => machine_id
  end.

Definition ancillary (id : Z) (name : string) : Ancillary :=
  {| anc_id := id; anc_name := name |}.

(** One job left, and ancillary rows that nothing refers to any more. *)
Definition leftover_store : database :=
  {| performance_datum := [];
     repository := [try_repository; autoland_repository];
     job := [{| job_id := 1; job_type_id := 10; job_group_id := 20; machine_id := 30 |}];
     job_type := [ancillary 10 "build"; ancillary 11 "test"; ancillary 12 "lint"];
     job_group := [ancillary 20 "opt"; ancillary 21 "debug"];
     machine := [ancillary 29 "w-1"; ancillary 30 "w-2"; ancillary 31 "w-3";
                 ancillary 32 "w-4"; ancillary 33 "w-5"; ancillary 34 "w-6"] |}.

(** The store after the three pruning passes. *)
Definition pruned (d : database) : database :=
  {| performance_datum := performance_datum d;
     repository := repository d;
     job := job d;
     job_type :=
       filter (fun a => existsb (Z.eqb (anc_id a)) (TreeherderCycler.used_ids job_type_id d))
         (job_type d);
     job_group :=
       filter (fun a => existsb (Z.eqb (anc_id a)) (TreeherderCycler.used_ids job_group_id d))
         (job_group d);
     machine :=
       filter (fun a => existsb (Z.eqb (anc_id a)) (TreeherderCycler.used_ids machine_id d))
         (machine d) |}.

(** Computations that raise nothing but exceptions satisfying [P]. *)
Definition raises_only {S A : Type} (P : exn -> Prop) (m : M S A) : Prop :=
  forall s e s', m s = (Raise e, s') -> P e.

Definition negative_slice (e : exn) : Prop := exn_cls e = AssertionError.
(** ** Further vocabulary *)

Definition removal_strategy_chunk_size (s : removal_strategy) : Z :=
  match s with
  | Main m => MainRemovalStrategy._chunk_size m
  | Try t => TryDataRemoval._chunk_size t
  end.

(** Strings without a [':']. *)
Fixpoint colon_free (s : string) : bool :=
  match s with
  | EmptyString => true
  | String c s' => negb (Ascii.eqb c ":"%char) && colon_free s'
  end.

(** The options [argparse] hands to [handle] when no flag is given: the
    defaults declared in [add_arguments]. *)
Definition default_options (data_source : option string) : Command.options :=
  {| Command.is_debug := false;
     Command.days := 120;
     Command.chunk_size := 100;
     Command.sleep_time := 0;
     Command.data_source := data_source |}.

(** [KeyError(key)]; its text is the [repr] of the key, for a key of plain
    letters the key between single quotes. *)
Definition KeyError (key : string) : exn :=
  {| exn_cls := OtherException "KeyError"; exn_msg := "'" ++ key ++ "'" |}.

Definition DoesNotExist_raised : exn :=
  {| exn_cls := DoesNotExist; exn_msg := "Repository matching query does not exist." |}.

Definition MultipleObjectsReturned_raised : exn :=
  {| exn_cls := MultipleObjectsReturned;
     exn_msg := "get() returned more than one Repository" |}.

(** Rows of both repositories on either side of a one-year and of a
    four-week cutoff at [day 0]. *)
Definition mixed_rows : list PerformanceDatum :=
  [datum 1 4 (day (-400)); datum 2 77 (day (-390)); datum 3 4 (day (-380));
   datum 4 4 (day (-40)); datum 5 77 (day (-35)); datum 6 4 (day (-2));
   datum 7 77 (day (-1))].

(** Computations that never stop for lack of fuel. *)
Definition fuel_free {S A : Type} (m : M S A) : Prop :=
  forall s, fst (m s) <> OutOfFuel.

(** A world with one more line in the log. *)
Definition logged (l : level) (msg : string) (w : world) : world :=
  {| db := db w; log := log w ++ [(l, msg)]; executed := executed w;
     clock := clock w; latency := latency w |}.

(** Job managers for the two other ways the bulk delete can end. *)
Definition deleting_cycle_data (n : Z) (cycle_interval chunk_size sleep_time : Z)
  : M world Z := ret n.

Definition denied_cycle_data (cycle_interval chunk_size sleep_time : Z) : M world Z :=
  raise {| exn_cls := ProgrammingError; exn_msg := "(1142, 'DELETE command denied')" |}.

(** * Verification *)

(** ** Query sets *)

Section QuerySetFacts.

Context {A : Type} (key : A -> Z).

Lemma insert_by_length (x : A) (l : list A) :
  List.length (insert_by key x l) = S (List.length l).
Proof.
  induction l as [|y l IH]; simpl; [reflexivity|].
  destruct (key x <=? key y); simpl; congruence.
Qed.

Lemma order_by_length (l : list A) : List.length (order_by key l) = List.length l.
Proof.
  induction l as [|x l IH]; simpl; [reflexivity|].
  rewrite insert_by_length. f_equal. exact IH.
Qed.

Lemma order_by_nil (l : list A) : l = [] -> order_by key l = [].
Proof. intros ->. reflexivity. Qed.

Lemma order_by_cons (x : A) (l : list A) :
  exists y rest, order_by key (x :: l) = y :: rest.
Proof.
  pose proof (order_by_length (x :: l)) as H.
  destruct (order_by key (x :: l)) as [|y rest]; [discriminate H|eauto].
Qed.

End QuerySetFacts.

Lemma filter_nil_none {A : Type} (p : A -> bool) (l : list A) :
  (forall x, In x l -> p x = false) -> filter p l = [].
Proof.
  induction l as [|x l IH]; intros H; simpl; [reflexivity|].
  rewrite (H x (or_introl eq_refl)). apply IH. intros y Hy. apply H. right. exact Hy.
Qed.

Lemma filter_some_cons {A : Type} (p : A -> bool) (l : list A) (x : A) :
  In x l -> p x = true -> exists y rest, filter p l = y :: rest.
Proof.
  intros Hin Hp.
  assert (Hf : In x (filter p l)) by (apply filter_In; split; assumption).
  destruct (filter p l) as [|y rest]; [destruct Hf|eauto].
Qed.

Lemma firstn_len_le {A : Type} (n : Z) (l : list A) :
  0 <= n -> len (firstn (Z.to_nat n) l) <= n.
Proof.
  intros Hn. unfold len. pose proof (firstn_le_length (Z.to_nat n) l). lia.
Qed.

Lemma py_or_le (x n : Z) : x <= n -> py_or x n <= n.
Proof. unfold py_or. destruct (x =? 0); lia. Qed.

Lemma py_or_zero (n : Z) : py_or 0 n = n.
Proof. reflexivity. Qed.

(** ** The chunk sizer *)

Ltac run_bind :=
  unfold bind, gets, ret, raise, modify, on_world; simpl.

(** Without a row newer than the cutoff the boundary-id query is empty and
    subscripting it raises. *)
Lemma main_chunk_size_no_newer (self : MainRemovalStrategy.t) (w : world) :
  (forall r, In r (performance_datum (db w)) ->
             pd_push_timestamp r <= MainRemovalStrategy._max_timestamp self) ->
  MainRemovalStrategy._find_ideal_chunk_size self w = (Raise IndexError_raised, w).
Proof.
  intros H. unfold MainRemovalStrategy._find_ideal_chunk_size. run_bind.
  rewrite filter_nil_none; [reflexivity|].
  intros r Hr. specialize (H r Hr). rewrite Z.gtb_ltb. apply Z.ltb_ge. lia.
Qed.

(** Whatever the chunk sizer returns is between 0 and the configured size,
    and the world is as it was. *)
Lemma main_chunk_size_bound (self : MainRemovalStrategy.t) (w w' : world) (n : Z) :
  MainRemovalStrategy._find_ideal_chunk_size self w = (Ret n, w') ->
  w' = w /\ 0 <= n <= MainRemovalStrategy._chunk_size self.
Proof.
  unfold MainRemovalStrategy._find_ideal_chunk_size, qs_first, qs_slice_to. run_bind.
  destruct (order_by _ (filter _ _)) as [|newest rest]; simpl; [discriminate|].
  destruct (MainRemovalStrategy._chunk_size self <? 0) eqn:Hneg; simpl; [discriminate|].
  intros H. injection H as Hn Hw. apply Z.ltb_ge in Hneg. split; [congruence|].
  subst n. split.
  - unfold py_or, len. destruct (_ =? 0); lia.
  - apply py_or_le, firstn_len_le. exact Hneg.
Qed.

(** With a row newer than the cutoff and none at or before it, the sizer
    falls back to the configured size. *)
Lemma main_chunk_size_fallback (self : MainRemovalStrategy.t) (w : world)
  (r : PerformanceDatum) :
  0 <= MainRemovalStrategy._chunk_size self ->
  In r (performance_datum (db w)) ->
  (forall r', In r' (performance_datum (db w)) ->
              MainRemovalStrategy._max_timestamp self < pd_push_timestamp r') ->
  MainRemovalStrategy._find_ideal_chunk_size self w
  = (Ret (MainRemovalStrategy._chunk_size self), w).
Proof.
  intros Hn Hin Hall.
  unfold MainRemovalStrategy._find_ideal_chunk_size, qs_first, qs_slice_to. run_bind.
  destruct (filter_some_cons (fun r0 => pd_push_timestamp r0 >? MainRemovalStrategy._max_timestamp self)
              _ r Hin) as (y & rest & Hf).
  { rewrite Z.gtb_ltb. apply Z.ltb_lt. apply Hall. exact Hin. }
  rewrite Hf. destruct (order_by_cons (fun r0 => - pd_id r0) y rest) as (y' & rest' & Ho).
  rewrite Ho. simpl.
  destruct (MainRemovalStrategy._chunk_size self <? 0) eqn:Hneg; [apply Z.ltb_lt in Hneg; lia|].
  simpl. rewrite filter_nil_none.
  - unfold order_by. simpl. rewrite firstn_nil. reflexivity.
  - intros x Hx. specialize (Hall x Hx). apply andb_false_iff. left. apply Z.leb_gt. exact Hall.
Qed.

Lemma try_repo_ret (t : TryDataRemoval.t) (w : world) (i : Z)
  (s' : TryDataRemoval.t * world) :
  TryDataRemoval.try_repo (t, w) = (Ret i, s') ->
  s' = (TryDataRemoval.set___try_repo_id (Some i) t, w).
Proof.
  unfold TryDataRemoval.try_repo, Repository_objects_get. run_bind.
  destruct (TryDataRemoval.__try_repo_id t) as [j|] eqn:Hc; simpl.
  - intros H. injection H as -> <-. destruct t; simpl in *. subst. reflexivity.
  - match goal with
    | |- context [filter ?p ?l] => destruct (filter p l) as [|r [|r' rs]]
    end; simpl; try discriminate.
    intros H. injection H as <- <-. reflexivity.
Qed.

Lemma try_repo_cached (t : TryDataRemoval.t) (w : world) (i : Z) :
  TryDataRemoval.try_repo (TryDataRemoval.set___try_repo_id (Some i) t, w)
  = (Ret i, (TryDataRemoval.set___try_repo_id (Some i) t, w)).
Proof. reflexivity. Qed.

(** The scoped sizer raises as well when the scope holds no row newer than
    the cutoff, in particular when it holds no row at all. *)
Lemma try_chunk_size_no_newer (t : TryDataRemoval.t) (w : world) (i : Z)
  (s' : TryDataRemoval.t * world) :
  TryDataRemoval.try_repo (t, w) = (Ret i, s') ->
  (forall r, In r (performance_datum (db w)) -> pd_repository_id r = i ->
             pd_push_timestamp r <= TryDataRemoval._max_timestamp t) ->
  TryDataRemoval._find_ideal_chunk_size (t, w) = (Raise IndexError_raised, s')
  /\ TryDataRemoval.remove (t, w) = (Raise IndexError_raised, s')
  /\ snd s' = w.
Proof.
  intros Hrepo Hnone. pose proof (try_repo_ret _ _ _ _ Hrepo) as Hs'.
  assert (Hsize : TryDataRemoval._find_ideal_chunk_size (t, w) = (Raise IndexError_raised, s')).
  { unfold TryDataRemoval._find_ideal_chunk_size.
    unfold bind at 1. unfold gets at 1. unfold bind at 1. rewrite Hrepo.
    unfold bind at 1. unfold gets at 1. subst s'. simpl snd.
    unfold bind at 1. rewrite filter_nil_none; [reflexivity|].
    intros r Hr. destruct (pd_repository_id r =? i) eqn:Hi.
    - apply Z.eqb_eq in Hi. specialize (Hnone r Hr Hi).
      apply andb_false_iff. left. rewrite Z.gtb_ltb. apply Z.ltb_ge. simpl. lia.
    - apply andb_false_r. }
  split; [exact Hsize|]. split.
  - unfold TryDataRemoval.remove. unfold bind at 1. rewrite Hsize. reflexivity.
  - subst s'. reflexivity.
Qed.

(** C1 (the code departs from the claim): on a table without rows, where no
    row is at or older than the cutoff, neither strategy's
    [_find_ideal_chunk_size] returns the configured size 100; both raise
    [IndexError] on the boundary-id lookup. *)
Theorem C1_chunk_size_raises_on_empty_table :
  let w := world_at (store []) (day 0) in
  let m := {| MainRemovalStrategy._cycle_interval := timedelta_days 365;
              MainRemovalStrategy._chunk_size := 100;
              MainRemovalStrategy._max_timestamp := day 0 - timedelta_days 365 |} in
  let t := {| TryDataRemoval._cycle_interval := timedelta_weeks 4;
              TryDataRemoval._chunk_size := 100;
              TryDataRemoval._max_timestamp := day 0 - timedelta_weeks 4;
              TryDataRemoval.__try_repo_id := None |} in
  MainRemovalStrategy.__init__ (timedelta_days 365) 100 w = (Ret m, w)
  /\ MainRemovalStrategy._find_ideal_chunk_size m w = (Raise IndexError_raised, w)
  /\ TryDataRemoval.__init__ 100 w = (Ret t, w)
  /\ TryDataRemoval._find_ideal_chunk_size (t, w)
     = (Raise IndexError_raised, (TryDataRemoval.set___try_repo_id (Some 4) t, w))
  /\ performance_datum (db w) = [].
Proof.
  cbv zeta. repeat split; vm_compute; reflexivity.
Qed.

(** C2 (the code departs from the claim): the [try] repository exists and no
    [performance_datum] row belongs to it; [remove] raises [IndexError]
    and executes no [DELETE]. *)
Theorem C2_scoped_remove_raises_on_empty_scope :
  let t := {| TryDataRemoval._cycle_interval := timedelta_weeks 4;
              TryDataRemoval._chunk_size := 100;
              TryDataRemoval._max_timestamp := day 0 - timedelta_weeks 4;
              TryDataRemoval.__try_repo_id := None |} in
  let w := world_at (store [datum 1 77 (day (-60)); datum 2 77 (day (-1))]) (day 0) in
  TryDataRemoval.__init__ 100 w = (Ret t, w)
  /\ TryDataRemoval.remove (t, w)
     = (Raise IndexError_raised, (TryDataRemoval.set___try_repo_id (Some 4) t, w))
  /\ executed w = [].
Proof.
  cbv zeta. split; [reflexivity|]. split; [|reflexivity]. vm_compute. reflexivity.
Qed.

(** C9: when no row is strictly newer than the cutoff, the unscoped
    strategy's [_find_ideal_chunk_size], and with it [remove], raises
    [IndexError] on the boundary-id lookup and leaves the world as it was,
    whether or not rows at or older than the cutoff exist; and whenever
    [remove] returns, some row is strictly newer than the cutoff. *)
Theorem C9_unscoped_remove_needs_newer_row (self : MainRemovalStrategy.t) (w : world) :
  ((forall r, In r (performance_datum (db w)) ->
              pd_push_timestamp r <= MainRemovalStrategy._max_timestamp self) ->
   MainRemovalStrategy._find_ideal_chunk_size self w = (Raise IndexError_raised, w)
   /\ MainRemovalStrategy.remove self w = (Raise IndexError_raised, w))
  /\ (forall w', MainRemovalStrategy.remove self w = (Ret tt, w') ->
        exists r, In r (performance_datum (db w))
                  /\ MainRemovalStrategy._max_timestamp self < pd_push_timestamp r).
Proof.
  split.
  - intros H. pose proof (main_chunk_size_no_newer self w H) as Hs. split; [exact Hs|].
    unfold MainRemovalStrategy.remove, bind. rewrite Hs. reflexivity.
  - intros w' Hrem.
    destruct (filter (fun r => pd_push_timestamp r >? MainRemovalStrategy._max_timestamp self)
                (performance_datum (db w))) as [|r rest] eqn:Hf.
    + exfalso. revert Hrem. unfold MainRemovalStrategy.remove, bind.
      rewrite main_chunk_size_no_newer; [discriminate|].
      intros r Hr. destruct (Z_le_gt_dec (pd_push_timestamp r) (MainRemovalStrategy._max_timestamp self)) as [Hle|Hgt]; [exact Hle|].
      assert (Hin : In r (filter (fun r => pd_push_timestamp r >? MainRemovalStrategy._max_timestamp self)
                (performance_datum (db w)))).
      { apply filter_In. split; [exact Hr|]. rewrite Z.gtb_ltb. apply Z.ltb_lt. lia. }
      rewrite Hf in Hin. destruct Hin.
    + assert (Hin : In r (filter (fun r => pd_push_timestamp r >? MainRemovalStrategy._max_timestamp self)
                (performance_datum (db w)))) by (rewrite Hf; left; reflexivity).
      apply filter_In in Hin. destruct Hin as [Hin Hgt]. exists r. split; [exact Hin|].
      rewrite Z.gtb_ltb in Hgt. apply Z.ltb_lt in Hgt. exact Hgt.
Qed.

(** Rows at or older than the cutoff are present, none is newer: [remove]
    raises and deletes nothing. *)
Lemma C9_unscoped_remove_needs_newer_row_witness :
  let self := {| MainRemovalStrategy._cycle_interval := timedelta_days 365;
                 MainRemovalStrategy._chunk_size := 100;
                 MainRemovalStrategy._max_timestamp := day 0 - timedelta_days 365 |} in
  let w := world_at (store [datum 1 77 (day (-400)); datum 2 4 (day (-365))]) (day 0) in
  MainRemovalStrategy._find_ideal_chunk_size self w = (Raise IndexError_raised, w)
  /\ MainRemovalStrategy.remove self w = (Raise IndexError_raised, w).
Proof.
  cbv zeta.
  apply (proj1 (C9_unscoped_remove_needs_newer_row _ _)).
  intros r Hr. simpl in Hr.
  destruct Hr as [<-|[<-|[]]]; vm_compute; discriminate.
Defined.

(** ** The bounded DELETE *)

Section DeleteLimit.

Context {A : Type} (p : A -> bool).


(** What a bounded delete takes out: at most [n] rows, all matching. *)
Lemma delete_limit_deleted (n : nat) (l : list A) :
  exists deleted,
    Permutation l (deleted ++ delete_limit p n l)
    /\ Forall (fun x => p x = true) deleted
    /\ (List.length deleted <= n)%nat.
Proof.
  revert n. induction l as [|x l IH]; intros n.
  - exists []. simpl. split; [constructor|split; [constructor|lia]].
  - destruct n as [|n].
    + exists []. simpl. split; [apply Permutation_refl|split; [constructor|lia]].
    + simpl. destruct (p x) eqn:Hp.
      * destruct (IH n) as (d & Hperm & Hall & Hlen).
        exists (x :: d). simpl. split; [|split].
        -- constructor. exact Hperm.
        -- constructor; assumption.
        -- lia.
      * destruct (IH (S n)) as (d & Hperm & Hall & Hlen).
        exists d. split; [|split; [exact Hall|exact Hlen]].
        apply Permutation_cons_app. exact Hperm.
Qed.

End DeleteLimit.


(** ** One [remove] call *)


Lemma main_chunk_size_world (self : MainRemovalStrategy.t) (w : world) :
  snd (MainRemovalStrategy._find_ideal_chunk_size self w) = w.
Proof.
  unfold MainRemovalStrategy._find_ideal_chunk_size, qs_first, qs_slice_to. run_bind.
  destruct (order_by _ (filter _ _)) as [|newest rest]; simpl; [reflexivity|].
  destruct (MainRemovalStrategy._chunk_size self <? 0); reflexivity.
Qed.


Section Preservation.

Context {S : Type} (R : S -> S -> Prop).
Hypothesis R_refl : forall s, R s s.
Hypothesis R_trans : forall a b c, R a b -> R b c -> R a c.

Lemma preserves_ret {A : Type} (a : A) : preserves R (ret a).
Proof. intros s. apply R_refl. Qed.

Lemma preserves_raise {A : Type} (e : exn) : preserves R (@raise S A e).
Proof. intros s. apply R_refl. Qed.

Lemma preserves_gets {A : Type} (f : S -> A) : preserves R (gets f).
Proof. intros s. apply R_refl. Qed.

Lemma preserves_bind {A B : Type} (m : M S A) (k : A -> M S B) :
  preserves R m -> (forall a, preserves R (k a)) -> preserves R (bind m k).
Proof.
  intros Hm Hk s. unfold bind. specialize (Hm s).
  destruct (m s) as [[a|e|] s1]; simpl in *; [|exact Hm..].
  eapply R_trans; [exact Hm|apply Hk].
Qed.

End Preservation.

Lemma same_world_and_cutoff_refl s : same_world_and_cutoff s s.
Proof. split; reflexivity. Qed.

Lemma same_world_and_cutoff_trans a b c :
  same_world_and_cutoff a b -> same_world_and_cutoff b c -> same_world_and_cutoff a c.
Proof. intros [H1 H2] [H3 H4]. split; congruence. Qed.

#[local] Hint Resolve same_world_and_cutoff_refl same_world_and_cutoff_trans : core.

Ltac step_bind := apply preserves_bind; [exact same_world_and_cutoff_trans | | ].

Lemma try_repo_preserves : preserves same_world_and_cutoff TryDataRemoval.try_repo.
Proof.
  unfold TryDataRemoval.try_repo.
  step_bind; [apply preserves_gets; auto|].
  intros [i|]; [apply preserves_ret; auto|].
  step_bind.
  - intros [t w]. unfold on_world. simpl.
    destruct (Repository_objects_get "try" w) as [r w'] eqn:Hget. simpl.
    assert (w' = w) as ->; [|apply same_world_and_cutoff_refl].
    revert Hget. unfold Repository_objects_get. run_bind.
    match goal with
    | |- context [filter ?p ?l] => destruct (filter p l) as [|r0 [|r1 rs]]
    end; simpl; congruence.
  - intros r. step_bind.
    + intros [t w]. split; reflexivity.
    + intros _. apply preserves_ret; auto.
Qed.

Lemma try_chunk_size_preserves :
  preserves same_world_and_cutoff TryDataRemoval._find_ideal_chunk_size.
Proof.
  unfold TryDataRemoval._find_ideal_chunk_size.
  step_bind; [apply preserves_gets; auto|intros self].
  step_bind; [apply try_repo_preserves|intros repo].
  step_bind; [apply preserves_gets; auto|intros rows].
  step_bind; [|intros newest].
  { unfold qs_first. destruct (order_by _ _); [apply preserves_raise|apply preserves_ret]; auto. }
  step_bind; [apply try_repo_preserves|intros repo'].
  step_bind; [|intros older_ids; apply preserves_ret; auto].
  unfold qs_slice_to. destruct (_ <? 0); [apply preserves_raise|apply preserves_ret]; auto.
Qed.





(** ** Exceptions and handlers *)

Lemma exn_class_eqb_eq (a b : exn_class) : exn_class_eqb a b = true <-> a = b.
Proof.
  split.
  - destruct a, b; simpl; try discriminate; try reflexivity.
    intros H. apply String.eqb_eq in H. congruence.
  - intros <-. destruct a; simpl; try reflexivity. apply String.eqb_refl.
Qed.

Lemma isinstance_true (e : exn) (c : exn_class) : exn_cls e = c -> isinstance e c = true.
Proof. intros H. apply exn_class_eqb_eq. exact H. Qed.

Lemma isinstance_false (e : exn) (c : exn_class) : exn_cls e <> c -> isinstance e c = false.
Proof.
  intros H. unfold isinstance. destruct (exn_class_eqb (exn_cls e) c) eqn:E; [|reflexivity].
  apply exn_class_eqb_eq in E. contradiction.
Qed.

Lemma bind_ret_inv {S A B : Type} (m : M S A) (k : A -> M S B) (s s' : S) (b : B) :
  bind m k s = (Ret b, s') -> exists a s1, m s = (Ret a, s1) /\ k a s1 = (Ret b, s').
Proof.
  unfold bind. destruct (m s) as [[a|e|] s1]; try discriminate. eauto.
Qed.

(** ** The floor on the Perfherder interval *)

Lemma datacycler_init_in_range (days chunk_size sleep_time : Z) (is_debug : option bool)
  (w : world) :
  Z.abs days <= TIMEDELTA_MAX_DAYS ->
  DataCycler.__init__ days chunk_size sleep_time is_debug w
  = (Ret (DataCycler.attributes days chunk_size sleep_time is_debug), w).
Proof.
  intros H. unfold DataCycler.__init__, datetime_timedelta, bind.
  apply Z.leb_le in H. rewrite H. reflexivity.
Qed.

Lemma datacycler_init_out_of_range (days chunk_size sleep_time : Z)
  (is_debug : option bool) (w : world) :
  TIMEDELTA_MAX_DAYS < Z.abs days ->
  exists e,
    DataCycler.__init__ days chunk_size sleep_time is_debug w = (Raise e, w)
    /\ exn_cls e = OverflowError.
Proof.
  intros H. unfold DataCycler.__init__, datetime_timedelta, bind.
  apply Z.leb_gt in H. rewrite H.
  destruct ((-2147483648 <=? days) && (days <=? 2147483647));
    eexists; split; reflexivity.
Qed.

(** C4 (amended): for [days] within the range of [datetime.timedelta], a
    magnitude of at most 999999999: below the 365-day floor, and outside
    the prototype host (the override environment), constructing the
    Perfherder cycler raises [ValueError] and leaves the world alone; the
    command then raises the same error having deleted nothing; at or above
    the floor, or on the prototype host, construction returns the
    cycler. *)
Theorem C4_perfherder_floor_within_timedelta_range (SITE_HOSTNAME : string)
  (days chunk_size sleep_time : Z) (is_debug : option bool) (w : world) :
  Z.abs days <= TIMEDELTA_MAX_DAYS ->
  (days < 365 -> SITE_HOSTNAME <> prototype_hostname ->
     PerfherderCycler.__init__ SITE_HOSTNAME days chunk_size sleep_time is_debug w
     = (Raise floor_error, w)
     /\ forall Job_cycle_data PerformanceDatum_cycle_data fuel debug,
          exists w',
            Command.handle SITE_HOSTNAME Job_cycle_data PerformanceDatum_cycle_data fuel
              {| Command.is_debug := debug; Command.days := days;
                 Command.chunk_size := chunk_size; Command.sleep_time := sleep_time;
                 Command.data_source := Some PERFHERDER_SUBCOMMAND |} w
            = (Raise floor_error, w')
            /\ db w' = db w /\ executed w' = executed w)
  /\ (365 <= days \/ SITE_HOSTNAME = prototype_hostname ->
      PerfherderCycler.__init__ SITE_HOSTNAME days chunk_size sleep_time is_debug w
      = (Ret (DataCycler.attributes days chunk_size sleep_time is_debug), w)).
Proof.
  intros Hrange. split.
  - intros Hdays Hhost.
    assert (Hguard : (days <? MINIMUM_PERFHERDER_EXPIRE_INTERVAL)
                     && negb (String.eqb SITE_HOSTNAME "treeherder-prototype2.herokuapp.com")
                     = true).
    { apply andb_true_iff. split.
      - apply Z.ltb_lt. exact Hdays.
      - apply negb_true_iff. apply String.eqb_neq. exact Hhost. }
    assert (Hinit : forall v,
               PerfherderCycler.__init__ SITE_HOSTNAME days chunk_size sleep_time is_debug v
               = (Raise floor_error, v)).
    { intros v. unfold PerfherderCycler.__init__, bind.
      rewrite datacycler_init_in_range by exact Hrange. rewrite Hguard. reflexivity. }
    split; [apply Hinit|].
    intros jcd pcd fuel debug.
    assert (Hfab : forall v,
               Command.fabricate_data_cycler SITE_HOSTNAME
                 {| Command.is_debug := debug; Command.days := days;
                    Command.chunk_size := chunk_size; Command.sleep_time := sleep_time;
                    Command.data_source := Some PERFHERDER_SUBCOMMAND |} v
               = (Raise floor_error, v)).
    { intros v.
      change (Command.fabricate_data_cycler SITE_HOSTNAME
                {| Command.is_debug := debug; Command.days := days;
                   Command.chunk_size := chunk_size; Command.sleep_time := sleep_time;
                   Command.data_source := Some PERFHERDER_SUBCOMMAND |} v)
        with ((c <- PerfherderCycler.__init__ SITE_HOSTNAME days chunk_size sleep_time
                      (Some debug) ;;
               ret {| Command.cls := Command.PerfherderCycler_cls; Command.self := c |}) v).
      unfold bind at 1. unfold PerfherderCycler.__init__. unfold bind at 1.
      rewrite datacycler_init_in_range by exact Hrange. rewrite Hguard. reflexivity. }
    eexists. unfold Command.handle.
    unfold bind at 1. unfold logger_warning at 1, logger_log at 1, modify at 1.
    unfold bind at 1. rewrite Hfab.
    split; [reflexivity|]. split; reflexivity.
  - intros H. unfold PerfherderCycler.__init__, bind.
    rewrite datacycler_init_in_range by exact Hrange.
    destruct H as [Hdays | ->].
    + replace (days <? MINIMUM_PERFHERDER_EXPIRE_INTERVAL) with false; [reflexivity|].
      symmetry. apply Z.ltb_ge. exact Hdays.
    + rewrite andb_comm. reflexivity.
Qed.

(** Thirty days on the production host are refused; 365 days are accepted
    there, and thirty days on the prototype host. *)
Lemma C4_perfherder_floor_within_timedelta_range_witness :
  let w := world_at (store [datum 1 77 (day (-400)); datum 2 77 (day (-1))]) (day 0) in
  PerfherderCycler.__init__ "treeherder.mozilla.org" 30 100 0 None w = (Raise floor_error, w)
  /\ (exists w',
        Command.handle "treeherder.mozilla.org" failing_cycle_data (guarded_cycle_data 5) 5
          (perfherder_options 30) w = (Raise floor_error, w')
        /\ db w' = db w /\ executed w' = executed w)
  /\ PerfherderCycler.__init__ "treeherder.mozilla.org" 365 100 0 None w
     = (Ret (DataCycler.attributes 365 100 0 None), w)
  /\ PerfherderCycler.__init__ prototype_hostname 30 100 0 None w
     = (Ret (DataCycler.attributes 30 100 0 None), w).
Proof.
  cbv zeta.
  pose (w := world_at (store [datum 1 77 (day (-400)); datum 2 77 (day (-1))]) (day 0)).
  assert (Hrange30 : Z.abs 30 <= TIMEDELTA_MAX_DAYS) by (vm_compute; discriminate).
  assert (Hrange365 : Z.abs 365 <= TIMEDELTA_MAX_DAYS) by (vm_compute; discriminate).
  assert (Hlow : 30 < 365) by lia.
  assert (Hhost : "treeherder.mozilla.org"%string <> prototype_hostname) by discriminate.
  destruct (proj1 (C4_perfherder_floor_within_timedelta_range "treeherder.mozilla.org"
                     30 100 0 None w Hrange30) Hlow Hhost)
    as [Hinit Hhandle].
  split; [exact Hinit|]. split.
  - exact (Hhandle failing_cycle_data (guarded_cycle_data 5) 5%nat false).
  - split.
    + apply (proj2 (C4_perfherder_floor_within_timedelta_range "treeherder.mozilla.org"
                      365 100 0 None w Hrange365)).
      left. lia.
    + apply (proj2 (C4_perfherder_floor_within_timedelta_range prototype_hostname
                      30 100 0 None w Hrange30)).
      right. reflexivity.
Defined.

(** C4 as the claim states it fails: a thousand million days are above the
    floor, yet construction raises [OverflowError], on the production host
    and on the prototype host alike, because [datetime.timedelta] refuses
    them before the floor is looked at. *)
Lemma C4_perfherder_floor_counterexample :
  let w := world_at (store [datum 1 77 (day (-400)); datum 2 77 (day (-1))]) (day 0) in
  365 <= 1000000000
  /\ (exists e,
        PerfherderCycler.__init__ "treeherder.mozilla.org" 1000000000 100 0 None w
        = (Raise e, w)
        /\ exn_cls e = OverflowError)
  /\ (exists e,
        PerfherderCycler.__init__ prototype_hostname 1000000000 100 0 None w
        = (Raise e, w)
        /\ exn_cls e = OverflowError).
Proof.
  cbv zeta. split; [lia|]. split; eexists; split; reflexivity.
Qed.

(** ** The runtime guard signal *)



(** ** Slicing *)

Lemma firstn_min_length {A : Type} (k : nat) (l : list A) :
  firstn (Nat.min (List.length l) k) l = firstn k l.
Proof.
  destruct (Nat.le_gt_cases k (List.length l)) as [H|H].
  - rewrite Nat.min_r by exact H. reflexivity.
  - rewrite Nat.min_l by lia. rewrite firstn_all. symmetry. apply firstn_all2. lia.
Qed.

Lemma skipn_min_length {A : Type} (k : nat) (l : list A) :
  skipn (Nat.min (List.length l) k) l = skipn k l.
Proof.
  destruct (Nat.le_gt_cases k (List.length l)) as [H|H].
  - rewrite Nat.min_r by exact H. reflexivity.
  - rewrite Nat.min_l by lia. rewrite skipn_all. symmetry. apply skipn_all2. lia.
Qed.

(** For a bound that is not negative the query set and the list slice
    alike. *)
Lemma slices_nonneg (s : id_sequence) (k : Z) (w : world) :
  0 <= k ->
  slice_to s k w = (Ret (firstn (Z.to_nat k) (items s)), w)
  /\ slice_from s k w = (Ret (skipn (Z.to_nat k) (items s)), w).
Proof.
  intros Hk. assert (Hneg : (k <? 0) = false) by (apply Z.ltb_ge; exact Hk).
  destruct s as [l|l]; simpl.
  - unfold qs_slice_to, qs_slice_from. rewrite Hneg. split; reflexivity.
  - unfold list_slice_to, list_slice_from, slice_index, ret. rewrite Hneg.
    rewrite firstn_min_length, skipn_min_length. split; reflexivity.
Qed.

(** Whatever the bound, the two slices of one sequence partition it. *)
Lemma slices_partition (s : id_sequence) (k : Z) (w w1 v v1 : world) (d r : list Z) :
  slice_to s k w = (Ret d, w1) ->
  slice_from s k v = (Ret r, v1) ->
  w1 = w /\ v1 = v /\ d ++ r = items s.
Proof.
  destruct s as [l|l]; simpl.
  - unfold qs_slice_to, qs_slice_from, ret, raise.
    destruct (k <? 0); [discriminate|].
    intros H1 H2. injection H1 as <- <-. injection H2 as <- <-.
    repeat split. apply firstn_skipn.
  - unfold list_slice_to, list_slice_from, ret.
    intros H1 H2. injection H1 as <- <-. injection H2 as <- <-.
    repeat split. apply firstn_skipn.
Qed.

(** ** Deleting by id *)

Lemma set_objects_objects (m : model) (d : database) : set_objects m (objects m d) d = d.
Proof. destruct m, d; reflexivity. Qed.

Lemma filter_all {A : Type} (p : A -> bool) (l : list A) :
  (forall x, In x l -> p x = true) -> filter p l = l.
Proof.
  induction l as [|x l IH]; intros H; simpl; [reflexivity|].
  rewrite (H x (or_introl eq_refl)). f_equal. apply IH. intros y Hy. apply H. right. exact Hy.
Qed.

Lemma filter_filter {A : Type} (p q : A -> bool) (l : list A) :
  filter q (filter p l) = filter (fun x => p x && q x) l.
Proof.
  induction l as [|x l IH]; simpl; [reflexivity|].
  destruct (p x); simpl; [destruct (q x)|]; rewrite IH; reflexivity.
Qed.

Lemma run_delete_nil (m : model) (d : database) :
  run_statement (DELETE_id__in m []) d = d.
Proof.
  simpl. rewrite filter_all by reflexivity. apply set_objects_objects.
Qed.

Lemma run_delete_app (m : model) (ids ids' : list Z) (d : database) :
  run_statement (DELETE_id__in m ids') (run_statement (DELETE_id__in m ids) d)
  = run_statement (DELETE_id__in m (ids ++ ids')) d.
Proof.
  assert (H : forall l : list Ancillary,
             filter (fun a => negb (existsb (Z.eqb (anc_id a)) ids'))
               (filter (fun a => negb (existsb (Z.eqb (anc_id a)) ids)) l)
             = filter (fun a => negb (existsb (Z.eqb (anc_id a)) (ids ++ ids'))) l).
  { intros l. rewrite filter_filter. apply filter_ext. intros a.
    rewrite existsb_app, negb_orb. reflexivity. }
  destruct m; simpl; rewrite H; reflexivity.
Qed.

(** ** The pruning loop *)

Lemma prune_loop_unfold (fuel : nat) (self : DataCycler.t) (m : model) (s : id_sequence) :
  TreeherderCycler.prune_loop fuel self m s
  = if len (items s) =? 0 then ret tt
    else
      match fuel with
      | O => out_of_fuel
      | S fuel' =>
          delete_ids <- slice_to s (DataCycler.chunk_size self) ;;
          logger_warning ("deleting " ++ string_of_Z (len delete_ids) ++ " of "
                            ++ string_of_Z (len (items s))) ;;;
          record_statement (DELETE_id__in m delete_ids) ;;;
          rest <- slice_from s (DataCycler.chunk_size self) ;;
          TreeherderCycler.prune_loop fuel' self m (PyList rest)
      end.
Proof. destruct fuel; reflexivity. Qed.

Lemma len_zero_nil {A : Type} (l : list A) : (len l =? 0) = true -> l = [].
Proof.
  unfold len. intros H. apply Z.eqb_eq in H. destruct l; [reflexivity|simpl in H; lia].
Qed.

(** When the loop returns, the ids it was given are gone from the table of
    [m] and nothing else changed in the store: this holds for every chunk
    size. *)
Lemma prune_loop_db (self : DataCycler.t) (m : model) (fuel : nat) :
  forall (s : id_sequence) (w w' : world),
    TreeherderCycler.prune_loop fuel self m s w = (Ret tt, w') ->
    db w' = run_statement (DELETE_id__in m (items s)) (db w).
Proof.
  induction fuel as [|fuel IH]; intros s w w'; rewrite prune_loop_unfold;
    destruct (len (items s) =? 0) eqn:Hlen.
  - intros H. injection H as <-. rewrite (len_zero_nil _ Hlen), run_delete_nil. reflexivity.
  - discriminate.
  - intros H. injection H as <-. rewrite (len_zero_nil _ Hlen), run_delete_nil. reflexivity.
  - intros H.
    apply bind_ret_inv in H. destruct H as (d & w1 & Hto & H).
    apply bind_ret_inv in H. destruct H as ([] & w2 & Hlog & H).
    apply bind_ret_inv in H. destruct H as ([] & w3 & Hdel & H).
    apply bind_ret_inv in H. destruct H as (r & w4 & Hfrom & H).
    injection Hlog as <-. injection Hdel as <-.
    destruct (slices_partition _ _ _ _ _ _ _ _ Hto Hfrom) as (-> & -> & Hpart).
    apply IH in H. rewrite H. simpl items. simpl db.
    rewrite <- Hpart. apply run_delete_app.
Qed.

Lemma ceil_div_step (n c : Z) :
  0 < c -> 0 < n -> (n + c - 1) / c = 1 + (Z.max 0 (n - c) + c - 1) / c.
Proof.
  intros Hc Hn. destruct (Z_le_gt_dec n c) as [Hle|Hgt].
  - rewrite Z.max_l by lia. replace (0 + c - 1) with (c - 1) by lia.
    rewrite (Z.div_small (c - 1) c) by lia.
    symmetry. apply Z.div_unique with (r := n - 1); lia.
  - rewrite Z.max_r by lia.
    replace (n + c - 1) with ((n - c + c - 1) + 1 * c) by lia.
    rewrite Z.div_add by lia. lia.
Qed.

(** With a positive chunk size and fuel for one round per id, the loop
    returns; its DELETE statements are the successive chunks of the ids. *)
Lemma prune_loop_chunks (self : DataCycler.t) (m : model) :
  0 < DataCycler.chunk_size self ->
  forall (fuel : nat) (s : id_sequence) (w : world),
    (List.length (items s) <= fuel)%nat ->
    exists w' chunks,
      TreeherderCycler.prune_loop fuel self m s w = (Ret tt, w')
      /\ executed w' = executed w ++ map (DELETE_id__in m) chunks
      /\ List.concat chunks = items s
      /\ Forall (fun ch => 0 < len ch <= DataCycler.chunk_size self) chunks
      /\ len chunks
         = (len (items s) + DataCycler.chunk_size self - 1) / DataCycler.chunk_size self.
Proof.
  intros Hc. set (c := DataCycler.chunk_size self) in *.
  induction fuel as [|fuel IH]; intros s w Hfuel; rewrite prune_loop_unfold;
    destruct (len (items s) =? 0) eqn:Hlen.
  1, 3: exists w, []; rewrite (len_zero_nil _ Hlen); simpl;
        rewrite app_nil_r; repeat split; [constructor|];
        unfold len; simpl; symmetry; apply Z.div_small; lia.
  - apply Z.eqb_neq in Hlen. unfold len in Hlen. lia.
  - apply Z.eqb_neq in Hlen.
    destruct (slices_nonneg s c w) as [Hto _]; [lia|].
    unfold bind at 1. fold c. rewrite Hto.
    unfold bind at 1. unfold logger_warning, logger_log, modify at 1.
    unfold bind at 1. unfold record_statement, modify at 1.
    match goal with
    | |- exists _ _, bind _ _ ?w0 = _ /\ _ => set (w1 := w0)
    end.
    destruct (slices_nonneg s c w1) as [_ Hfrom]; [lia|].
    unfold bind at 1. rewrite Hfrom.
    set (d := firstn (Z.to_nat c) (items s)).
    set (r := skipn (Z.to_nat c) (items s)).
    assert (Hr : (List.length r <= fuel)%nat).
    { unfold r. rewrite length_skipn. unfold len in Hlen. lia. }
    destruct (IH (PyList r) w1 Hr) as (w' & chunks & Hrun & Hex & Hcat & Hall & Hcount).
    exists w', (d :: chunks). split; [exact Hrun|]. split; [|split; [|split]].
    + rewrite Hex. unfold w1. simpl. rewrite <- app_assoc. reflexivity.
    + simpl. rewrite Hcat. simpl. apply firstn_skipn.
    + constructor; [|exact Hall].
      unfold d, len. rewrite length_firstn. unfold len in Hlen. lia.
    + replace (len (d :: chunks)) with (1 + len chunks)
        by (unfold len; simpl List.length; lia).
      rewrite Hcount. simpl items.
      rewrite (ceil_div_step (len (items s)) c) by (unfold len in *; lia).
      f_equal. f_equal. f_equal. f_equal.
      unfold r, len. rewrite length_skipn. lia.
Qed.

Lemma NoDup_app_disjoint {A : Type} (l1 l2 : list A) (x : A) :
  NoDup (l1 ++ l2) -> In x l1 -> ~ In x l2.
Proof.
  intros Hnd H1 H2. apply in_split in H2. destruct H2 as (a & b & ->).
  rewrite app_assoc in Hnd. apply NoDup_remove_2 in Hnd.
  apply Hnd. apply in_or_app. left. apply in_or_app. left. exact H1.
Qed.

(** Among chunks that concatenate to a duplicate-free list, an element lies
    in exactly one. *)
Lemma one_chunk_holds (chunks : list (list Z)) (x : Z) :
  NoDup (List.concat chunks) -> In x (List.concat chunks) ->
  List.length (filter (fun ch => existsb (Z.eqb x) ch) chunks) = 1%nat.
Proof.
  induction chunks as [|ch rest IH]; simpl; intros Hnd Hin; [destruct Hin|].
  destruct (existsb (Z.eqb x) ch) eqn:Hx.
  - simpl. f_equal. rewrite filter_nil_none; [reflexivity|].
    intros ch' Hch'. destruct (existsb (Z.eqb x) ch') eqn:Hx'; [exfalso|reflexivity].
    apply existsb_exists in Hx. destruct Hx as (y & Hy & Hxy). apply Z.eqb_eq in Hxy. subst y.
    apply existsb_exists in Hx'. destruct Hx' as (y & Hy' & Hxy). apply Z.eqb_eq in Hxy. subst y.
    apply (NoDup_app_disjoint _ _ x Hnd Hy).
    apply in_concat. exists ch'. split; assumption.
  - apply IH.
    + apply NoDup_app_remove_l in Hnd. exact Hnd.
    + apply in_app_or in Hin. destruct Hin as [Hin|Hin]; [|exact Hin].
      exfalso. assert (existsb (Z.eqb x) ch = true); [|congruence].
      apply existsb_exists. exists x. split; [exact Hin|apply Z.eqb_refl].
Qed.

(** C8: for a positive chunk size [c] and [n] unreferenced ids the loop of
    [prune] returns, given fuel for [n] rounds; it issues ceil(n/c) delete
    statements, each over at most [c] ids, whose id lists concatenate to
    the ids given, so that an id that occurs once is in exactly one
    statement. *)
Theorem C8_prune_loop_chunks_cover (self : DataCycler.t) (m : model) (ids : list Z)
  (w : world) (fuel : nat) :
  0 < DataCycler.chunk_size self ->
  (List.length ids <= fuel)%nat ->
  exists w' chunks,
    TreeherderCycler.prune_loop fuel self m (QuerySet ids) w = (Ret tt, w')
    /\ executed w' = executed w ++ map (DELETE_id__in m) chunks
    /\ len chunks = (len ids + DataCycler.chunk_size self - 1) / DataCycler.chunk_size self
    /\ len ids <= len chunks * DataCycler.chunk_size self < len ids + DataCycler.chunk_size self
    /\ Forall (fun ch => len ch <= DataCycler.chunk_size self) chunks
    /\ List.concat chunks = ids
    /\ (NoDup ids -> forall x, In x ids ->
          List.length (filter (fun ch => existsb (Z.eqb x) ch) chunks) = 1%nat).
Proof.
  intros Hc Hfuel.
  destruct (prune_loop_chunks self m Hc fuel (QuerySet ids) w Hfuel)
    as (w' & chunks & Hrun & Hex & Hcat & Hall & Hcount).
  simpl items in *.
  exists w', chunks. split; [exact Hrun|]. split; [exact Hex|]. split; [exact Hcount|].
  split; [|split; [|split]].
  - rewrite Hcount. set (c := DataCycler.chunk_size self) in *.
    pose proof (Z.div_mod (len ids + c - 1) c ltac:(lia)) as Hdm.
    pose proof (Z.mod_pos_bound (len ids + c - 1) c Hc) as Hmod.
    nia.
  - eapply Forall_impl; [|exact Hall]. intros ch Hch. cbv beta in Hch. lia.
  - exact Hcat.
  - intros Hnd x Hx. apply one_chunk_holds; rewrite Hcat; assumption.
Qed.

(** Five orphaned ids pruned two at a time go in three statements. *)
Lemma C8_prune_loop_chunks_cover_witness :
  exists w' chunks,
    TreeherderCycler.prune_loop 5 (DataCycler.attributes 120 2 0 None) Machine
      (QuerySet [29; 31; 32; 33; 34]) (world_at leftover_store (day 0)) = (Ret tt, w')
    /\ executed w' = map (DELETE_id__in Machine) chunks
    /\ len chunks = 3
    /\ List.concat chunks = [29; 31; 32; 33; 34].
Proof.
  destruct (C8_prune_loop_chunks_cover (DataCycler.attributes 120 2 0 None) Machine
              [29; 31; 32; 33; 34] (world_at leftover_store (day 0)) 5)
    as (w' & chunks & Hrun & Hex & Hcount & _ & _ & Hcat & _).
  - simpl. lia.
  - simpl. lia.
  - exists w', chunks. split; [exact Hrun|]. split; [exact Hex|]. split; [exact Hcount|exact Hcat].
Defined.

(** ** Orphan pruning *)

Lemma used_ids_spec (f : Job -> Z) (d : database) (a : Ancillary) :
  existsb (Z.eqb (anc_id a)) (TreeherderCycler.used_ids f d) = true
  <-> exists j, In j (job d) /\ f j = anc_id a.
Proof.
  unfold TreeherderCycler.used_ids. rewrite existsb_exists. split.
  - intros (x & Hx & Heq). apply Z.eqb_eq in Heq. subst x.
    apply nodup_In, in_map_iff in Hx. destruct Hx as (j & Hj & Hin). eauto.
  - intros (j & Hin & Hj). exists (anc_id a). split; [|apply Z.eqb_refl].
    apply nodup_In, in_map_iff. eauto.
Qed.

(** Deleting the unused ids keeps exactly the rows whose id is used. *)
Lemma unused_delete (f : Job -> Z) (m : model) (d : database) :
  run_statement (DELETE_id__in m (TreeherderCycler.unused_ids f m d)) d
  = set_objects m
      (filter (fun a => existsb (Z.eqb (anc_id a)) (TreeherderCycler.used_ids f d))
         (objects m d)) d.
Proof.
  simpl. f_equal. apply filter_ext_in. intros a Ha.
  unfold TreeherderCycler.unused_ids.
  destruct (existsb (Z.eqb (anc_id a)) (TreeherderCycler.used_ids f d)) eqn:Hused.
  - apply negb_true_iff.
    destruct (existsb (Z.eqb (anc_id a)) (map anc_id _)) eqn:Hun; [|reflexivity].
    apply existsb_exists in Hun. destruct Hun as (x & Hx & Heq).
    apply Z.eqb_eq in Heq. subst x. apply in_map_iff in Hx. destruct Hx as (a' & Hid & Ha').
    apply filter_In in Ha'. destruct Ha' as [_ Hun]. rewrite Hid, Hused in Hun. discriminate.
  - apply negb_false_iff. apply existsb_exists. exists (anc_id a).
    split; [|apply Z.eqb_refl]. apply in_map. apply filter_In. split; [exact Ha|].
    rewrite Hused. reflexivity.
Qed.

Lemma prune_db (fuel : nat) (self : DataCycler.t) (f : Job -> Z) (m : model) (w w' : world) :
  TreeherderCycler.prune fuel self f m w = (Ret tt, w') ->
  db w'
  = set_objects m
      (filter (fun a => existsb (Z.eqb (anc_id a)) (TreeherderCycler.used_ids f (db w)))
         (objects m (db w))) (db w).
Proof.
  unfold TreeherderCycler.prune. intros H.
  apply bind_ret_inv in H. destruct H as ([] & w1 & Hlog1 & H). injection Hlog1 as <-.
  apply bind_ret_inv in H. destruct H as (unused & w2 & Hget & H). injection Hget as <- <-.
  apply bind_ret_inv in H. destruct H as ([] & w3 & Hlog2 & H). injection Hlog2 as <-.
  apply prune_loop_db in H. rewrite H. simpl. apply unused_delete.
Qed.

Lemma prune_total (fuel : nat) (self : DataCycler.t) (f : Job -> Z) (m : model) (w : world) :
  0 < DataCycler.chunk_size self ->
  (List.length (objects m (db w)) <= fuel)%nat ->
  exists w', TreeherderCycler.prune fuel self f m w = (Ret tt, w').
Proof.
  intros Hc Hfuel. unfold TreeherderCycler.prune.
  unfold bind at 1. unfold logger_warning, logger_log, modify at 1.
  unfold bind at 1. unfold gets at 1.
  unfold bind at 1. unfold modify at 1.
  match goal with
  | |- exists _, TreeherderCycler.prune_loop _ _ _ ?s ?w0 = _ =>
      destruct (prune_loop_chunks self m Hc fuel s w0) as (w' & _ & Hrun & _)
  end.
  - simpl. unfold TreeherderCycler.unused_ids. rewrite length_map.
    etransitivity; [apply filter_length_le|exact Hfuel].
  - exists w'. exact Hrun.
Qed.

Lemma remove_leftovers_db (fuel : nat) (self : DataCycler.t) (w w' : world) :
  TreeherderCycler.remove_leftovers fuel self w = (Ret tt, w') -> db w' = pruned (db w).
Proof.
  unfold TreeherderCycler.remove_leftovers. intros H.
  apply bind_ret_inv in H. destruct H as ([] & w0 & Hlog & H). injection Hlog as <-.
  apply bind_ret_inv in H. destruct H as ([] & w1 & H1 & H).
  apply bind_ret_inv in H. destruct H as ([] & w2 & H2 & H3).
  apply prune_db in H1, H2, H3. rewrite H3, H2, H1. reflexivity.
Qed.

Lemma remove_leftovers_total (fuel : nat) (self : DataCycler.t) (w : world) :
  0 < DataCycler.chunk_size self ->
  (forall m, (List.length (objects m (db w)) <= fuel)%nat) ->
  exists w', TreeherderCycler.remove_leftovers fuel self w = (Ret tt, w').
Proof.
  intros Hc Hfuel. unfold TreeherderCycler.remove_leftovers.
  unfold bind at 1. unfold logger_warning at 1, logger_log, modify.
  match goal with |- exists _, bind _ _ ?w0 = _ => set (v0 := w0) end.
  destruct (prune_total fuel self job_type_id JobType v0 Hc (Hfuel JobType)) as [v1 H1].
  unfold bind at 1. rewrite H1. apply prune_db in H1 as D1.
  destruct (prune_total fuel self job_group_id JobGroup v1 Hc) as [v2 H2].
  { rewrite D1. exact (Hfuel JobGroup). }
  unfold bind at 1. rewrite H2. apply prune_db in H2 as D2.
  apply prune_total; [exact Hc|]. rewrite D2, D1. exact (Hfuel Machine).
Qed.

Lemma pruned_objects (m : model) (d : database) (a : Ancillary) :
  In a (objects m (pruned d))
  <-> In a (objects m d) /\ exists j, In j (job d) /\ foreign_key m j = anc_id a.
Proof.
  destruct m; simpl; rewrite filter_In, used_ids_spec; reflexivity.
Qed.

(** C7: with a positive chunk size [remove_leftovers] completes, and
    whenever it completes the jobs are as before and, for each of the three
    models, the rows that remain are exactly the rows that were there and
    that some job refers to: every orphan is gone, no referenced row is. *)
Theorem C7_orphans_pruned (self : DataCycler.t) (w : world) :
  (0 < DataCycler.chunk_size self ->
     exists fuel w', TreeherderCycler.remove_leftovers fuel self w = (Ret tt, w'))
  /\ (forall fuel w',
        TreeherderCycler.remove_leftovers fuel self w = (Ret tt, w') ->
        job (db w') = job (db w)
        /\ forall m a,
             In a (objects m (db w'))
             <-> In a (objects m (db w))
                 /\ exists j, In j (job (db w)) /\ foreign_key m j = anc_id a).
Proof.
  split.
  - intros Hc.
    exists (List.length (job_type (db w)) + List.length (job_group (db w))
            + List.length (machine (db w)))%nat.
    apply remove_leftovers_total; [exact Hc|]. intros []; simpl; lia.
  - intros fuel w' H. apply remove_leftovers_db in H. rewrite H.
    split; [reflexivity|]. intros m a. apply pruned_objects.
Qed.

(** On the store with one job left, pruning two ids at a time keeps the
    three rows the job refers to and nothing else. *)
Lemma C7_orphans_pruned_witness :
  exists fuel w',
    TreeherderCycler.remove_leftovers fuel (DataCycler.attributes 120 2 0 None)
      (world_at leftover_store (day 0)) = (Ret tt, w')
    /\ job (db w') = job leftover_store
    /\ (forall m a, In a (objects m (db w')) ->
                    In a [ancillary 10 "build"; ancillary 20 "opt"; ancillary 30 "w-2"]).
Proof.
  pose proof (C7_orphans_pruned (DataCycler.attributes 120 2 0 None)
                (world_at leftover_store (day 0))) as [Htotal Hkeeps].
  destruct Htotal as (fuel & w' & Hrun); [simpl; lia|].
  exists fuel, w'. split; [exact Hrun|].
  destruct (Hkeeps fuel w' Hrun) as [Hjob Hrows]. split; [exact Hjob|].
  intros m a Ha. apply Hrows in Ha. destruct Ha as (Ha & j & Hj & Hkey).
  simpl in Hj. destruct Hj as [<-|[]].
  destruct m; simpl in Ha, Hkey;
    repeat (destruct Ha as [<-|Ha]; [simpl in Hkey; try discriminate; simpl; tauto|]);
    destruct Ha.
Defined.

(** ** What pruning can raise *)

Section RaisesOnly.

Context {S : Type} (P : exn -> Prop).

Lemma raises_only_ret {A : Type} (a : A) : raises_only P (@ret S A a).
Proof. intros s e s' H. discriminate H. Qed.

Lemma raises_only_gets {A : Type} (f : S -> A) : raises_only P (gets f).
Proof. intros s e s' H. discriminate H. Qed.

Lemma raises_only_modify (f : S -> S) : raises_only P (modify f).
Proof. intros s e s' H. discriminate H. Qed.

Lemma raises_only_out_of_fuel {A : Type} : raises_only P (@out_of_fuel S A).
Proof. intros s e s' H. discriminate H. Qed.

Lemma raises_only_bind {A B : Type} (m : M S A) (k : A -> M S B) :
  raises_only P m -> (forall a, raises_only P (k a)) -> raises_only P (bind m k).
Proof.
  intros Hm Hk s e s'. unfold bind.
  destruct (m s) as [[a|e0|] s1] eqn:Hms.
  - apply Hk.
  - intros H. injection H as -> ->. eapply Hm. exact Hms.
  - discriminate.
Qed.

End RaisesOnly.


Lemma slice_to_raises (s : id_sequence) (k : Z) : raises_only negative_slice (slice_to s k).
Proof.
  intros w e w'. destruct s as [l|l]; simpl.
  - unfold qs_slice_to, raise, ret. destruct (k <? 0); [|discriminate].
    intros H. injection H as <- _. reflexivity.
  - discriminate.
Qed.

Lemma slice_from_raises (s : id_sequence) (k : Z) :
  raises_only negative_slice (slice_from s k).
Proof.
  intros w e w'. destruct s as [l|l]; simpl.
  - unfold qs_slice_from, raise, ret. destruct (k <? 0); [|discriminate].
    intros H. injection H as <- _. reflexivity.
  - discriminate.
Qed.

Lemma prune_loop_raises (self : DataCycler.t) (m : model) (fuel : nat) :
  forall s, raises_only negative_slice (TreeherderCycler.prune_loop fuel self m s).
Proof.
  induction fuel as [|fuel IH]; intros s; rewrite prune_loop_unfold;
    destruct (len (items s) =? 0);
    try apply raises_only_ret; try apply raises_only_out_of_fuel.
  apply raises_only_bind; [apply slice_to_raises|intros d].
  apply raises_only_bind; [apply raises_only_modify|intros _].
  apply raises_only_bind; [apply raises_only_modify|intros _].
  apply raises_only_bind; [apply slice_from_raises|intros r].
  apply IH.
Qed.

Lemma prune_raises (fuel : nat) (self : DataCycler.t) (f : Job -> Z) (m : model) :
  raises_only negative_slice (TreeherderCycler.prune fuel self f m).
Proof.
  unfold TreeherderCycler.prune.
  apply raises_only_bind; [apply raises_only_modify|intros _].
  apply raises_only_bind; [apply raises_only_gets|intros unused].
  apply raises_only_bind; [apply raises_only_modify|intros _].
  apply prune_loop_raises.
Qed.

Lemma remove_leftovers_raises (fuel : nat) (self : DataCycler.t) :
  raises_only negative_slice (TreeherderCycler.remove_leftovers fuel self).
Proof.
  unfold TreeherderCycler.remove_leftovers.
  apply raises_only_bind; [apply raises_only_modify|intros _].
  repeat (apply raises_only_bind; [apply prune_raises|intros _]).
  apply prune_raises.
Qed.

(** ** A failing bulk delete *)

(** C5: when [Job.objects.cycle_data] raises an [OperationalError],
    [TreeherderCycler.cycle] logs it as an error and goes on with
    [remove_leftovers]: its outcome is that of the pruning, it is not the
    error raised by the bulk delete, and with a positive chunk size and
    fuel for the ancillary tables it returns with the orphans pruned. *)
Theorem C5_operational_error_does_not_stop_pruning
  (Job_objects_cycle_data : Z -> Z -> Z -> M world Z) (fuel : nat) (self : DataCycler.t)
  (w w1 : world) (e : exn) :
  let started :=
    {| db := db w; log := log w ++ [(WARNING, "Cycling jobs across all repositories"%string)];
       executed := executed w; clock := clock w; latency := latency w |} in
  let logged :=
    {| db := db w1;
       log := log w1 ++ [(ERROR, ("Error running cycle_data: " ++ exn_msg e)%string)];
       executed := executed w1; clock := clock w1; latency := latency w1 |} in
  Job_objects_cycle_data (DataCycler.cycle_interval self) (DataCycler.chunk_size self)
    (DataCycler.sleep_time self) started = (Raise e, w1) ->
  exn_cls e = OperationalError ->
  TreeherderCycler.cycle Job_objects_cycle_data fuel self w
  = TreeherderCycler.remove_leftovers fuel self logged
  /\ fst (TreeherderCycler.cycle Job_objects_cycle_data fuel self w) <> Raise e
  /\ (0 < DataCycler.chunk_size self ->
      (forall m, (List.length (objects m (db w1)) <= fuel)%nat) ->
      exists w',
        TreeherderCycler.cycle Job_objects_cycle_data fuel self w = (Ret tt, w')
        /\ db w' = pruned (db w1)).
Proof.
  cbv zeta. intros Hcd Hcls.
  assert (Hcycle : TreeherderCycler.cycle Job_objects_cycle_data fuel self w
                   = TreeherderCycler.remove_leftovers fuel self
                       {| db := db w1;
                          log := log w1
                                 ++ [(ERROR, ("Error running cycle_data: " ++ exn_msg e)%string)];
                          executed := executed w1; clock := clock w1; latency := latency w1 |}).
  { unfold TreeherderCycler.cycle.
    unfold bind at 1. unfold logger_warning at 1, logger_log at 1, modify at 1.
    unfold bind at 1. unfold try_except. unfold bind at 1. rewrite Hcd.
    rewrite (isinstance_true _ _ Hcls). reflexivity. }
  rewrite Hcycle. split; [reflexivity|]. split.
  - intros Hraise.
    match goal with
    | H : fst (?m ?s) = Raise e |- _ => destruct (m s) as [r w2] eqn:Hrun
    end.
    simpl in Hraise. subst r. apply remove_leftovers_raises in Hrun.
    unfold negative_slice in Hrun. congruence.
  - intros Hc Hfuel.
    match goal with
    | |- exists _, TreeherderCycler.remove_leftovers _ _ ?v = _ /\ _ =>
        destruct (remove_leftovers_total fuel self v Hc Hfuel) as [w' Hrun]
    end.
    exists w'. split; [exact Hrun|].
    apply remove_leftovers_db in Hrun. exact Hrun.
Qed.

(** The connection drops during the bulk delete on the store with one job
    left: [cycle] returns, the error is in the log and the orphans are
    gone. *)
Lemma C5_operational_error_does_not_stop_pruning_witness :
  exists w',
    TreeherderCycler.cycle failing_cycle_data 6 (DataCycler.attributes 120 2 0 None)
      (world_at leftover_store (day 0)) = (Ret tt, w')
    /\ db w' = pruned leftover_store.
Proof.
  destruct (C5_operational_error_does_not_stop_pruning failing_cycle_data 6
              (DataCycler.attributes 120 2 0 None) (world_at leftover_store (day 0)) _ _
              eq_refl eq_refl) as (_ & _ & Hruns).
  destruct Hruns as (w' & Hrun & Hdb).
  - simpl. lia.
  - intros []; simpl; lia.
  - exists w'. split; [exact Hrun|exact Hdb].
Defined.

(** * Further properties of the code *)

(** ** The boundary id *)

(** The first row of an ordered query set is one of its rows and none has
    a smaller key. *)
Lemma order_by_head {A : Type} (key : A -> Z) (l : list A) (y : A) (rest : list A) :
  order_by key l = y :: rest -> In y l /\ forall x, In x l -> key y <= key x.
Proof.
  revert y rest. induction l as [|a l IH]; intros y rest H; [discriminate|].
  change (insert_by key a (order_by key l) = y :: rest) in H.
  destruct (order_by key l) as [|h s] eqn:Hs.
  - assert (Hl : l = []).
    { pose proof (order_by_length key l) as Hlen. rewrite Hs in Hlen.
      destruct l; [reflexivity|discriminate]. }
    subst l. simpl in H. injection H as <- <-.
    split; [left; reflexivity|]. intros x [<-|[]]. lia.
  - destruct (IH h s eq_refl) as [Hin Hmin]. simpl in H.
    destruct (key a <=? key h) eqn:E.
    + injection H as <- <-. apply Z.leb_le in E.
      split; [left; reflexivity|]. intros x [<-|Hx]; [lia|].
      specialize (Hmin x Hx). lia.
    + injection H as <- <-. apply Z.leb_gt in E.
      split; [right; exact Hin|]. intros x [<-|Hx]; [lia|apply Hmin; exact Hx].
Qed.

Lemma len_firstn {A : Type} (n : Z) (l : list A) :
  0 <= n -> len (firstn (Z.to_nat n) l) = Z.min n (len l).
Proof. intros Hn. unfold len. rewrite length_firstn. lia. Qed.

Lemma py_or_bounds (x n : Z) :
  0 <= x <= n -> 0 <= py_or x n <= n /\ (py_or x n = 0 -> n = 0).
Proof.
  intros Hx. unfold py_or. destruct (x =? 0) eqn:E.
  - split; [lia|]. intros H. exact H.
  - apply Z.eqb_neq in E. split; [lia|]. intros H. contradiction.
Qed.

(** X1: the value of the unscoped chunk sizer.  [newest] is a row newer
    than the cutoff with the largest id among such rows; the sizer counts
    the rows at or older than the cutoff whose id does not exceed that of
    [newest], caps the count at the configured size, and returns the
    configured size in place of zero. *)
Theorem main_chunk_size_value (self : MainRemovalStrategy.t) (w : world)
  (newest : PerformanceDatum) :
  0 <= MainRemovalStrategy._chunk_size self ->
  In newest (performance_datum (db w)) ->
  MainRemovalStrategy._max_timestamp self < pd_push_timestamp newest ->
  (forall r, In r (performance_datum (db w)) ->
             MainRemovalStrategy._max_timestamp self < pd_push_timestamp r ->
             pd_id r <= pd_id newest) ->
  MainRemovalStrategy._find_ideal_chunk_size self w
  = (Ret (py_or
            (Z.min (MainRemovalStrategy._chunk_size self)
               (len (filter
                       (fun r => (pd_push_timestamp r
                                  <=? MainRemovalStrategy._max_timestamp self)
                                 && (pd_id r <=? pd_id newest))
                       (performance_datum (db w)))))
            (MainRemovalStrategy._chunk_size self)), w).
Proof.
  intros Hn Hin Hnew Hmax.
  unfold MainRemovalStrategy._find_ideal_chunk_size, qs_first, qs_slice_to. run_bind.
  set (newer := filter (fun r => pd_push_timestamp r >? MainRemovalStrategy._max_timestamp self)
                  (performance_datum (db w))).
  assert (Hnewer : In newest newer).
  { apply filter_In. split; [exact Hin|]. rewrite Z.gtb_ltb. apply Z.ltb_lt. exact Hnew. }
  destruct (order_by (fun r => - pd_id r) newer) as [|top rest] eqn:Ho.
  - pose proof (order_by_length (fun r => - pd_id r) newer) as Hlen. rewrite Ho in Hlen.
    destruct newer; [destruct Hnewer|discriminate].
  - apply order_by_head in Ho. destruct Ho as [Htop Hmin].
    specialize (Hmin newest Hnewer). cbv beta in Hmin.
    apply filter_In in Htop. destruct Htop as [Htop Hts].
    rewrite Z.gtb_ltb in Hts. apply Z.ltb_lt in Hts.
    specialize (Hmax top Htop Hts).
    assert (Hid : pd_id top = pd_id newest) by lia.
    simpl. rewrite Hid.
    destruct (MainRemovalStrategy._chunk_size self <? 0) eqn:Hneg;
      [apply Z.ltb_lt in Hneg; lia|].
    simpl. rewrite len_firstn by exact Hn. unfold len at 1. rewrite order_by_length.
    reflexivity.
Qed.

(** One year before [day 0]: rows 1 to 3 are older and below the boundary
    id 7, so a sizer configured with 100 returns 3 and one configured with
    2 returns 2. *)
Lemma main_chunk_size_value_witness :
  let w := world_at (store mixed_rows) (day 0) in
  let cutoff := day 0 - timedelta_days 365 in
  MainRemovalStrategy._find_ideal_chunk_size
    {| MainRemovalStrategy._cycle_interval := timedelta_days 365;
       MainRemovalStrategy._chunk_size := 100;
       MainRemovalStrategy._max_timestamp := cutoff |} w = (Ret 3, w)
  /\ MainRemovalStrategy._find_ideal_chunk_size
       {| MainRemovalStrategy._cycle_interval := timedelta_days 365;
          MainRemovalStrategy._chunk_size := 2;
          MainRemovalStrategy._max_timestamp := cutoff |} w = (Ret 2, w).
Proof.
  cbv zeta. split.
  - apply (main_chunk_size_value
             {| MainRemovalStrategy._cycle_interval := timedelta_days 365;
                MainRemovalStrategy._chunk_size := 100;
                MainRemovalStrategy._max_timestamp := day 0 - timedelta_days 365 |}
             (world_at (store mixed_rows) (day 0)) (datum 7 77 (day (-1)))).
    + simpl. lia.
    + simpl. tauto.
    + vm_compute. reflexivity.
    + intros r Hr _. simpl in Hr.
      repeat (destruct Hr as [<-|Hr]; [vm_compute; discriminate|]). destruct Hr.
  - apply (main_chunk_size_value
             {| MainRemovalStrategy._cycle_interval := timedelta_days 365;
                MainRemovalStrategy._chunk_size := 2;
                MainRemovalStrategy._max_timestamp := day 0 - timedelta_days 365 |}
             (world_at (store mixed_rows) (day 0)) (datum 7 77 (day (-1)))).
    + simpl. lia.
    + simpl. tauto.
    + vm_compute. reflexivity.
    + intros r Hr _. simpl in Hr.
      repeat (destruct Hr as [<-|Hr]; [vm_compute; discriminate|]). destruct Hr.
Defined.

(** ** What a sizer returns and what a [remove] call does *)

Lemma main_chunk_size_inv (self : MainRemovalStrategy.t) (w w' : world) (n : Z) :
  MainRemovalStrategy._find_ideal_chunk_size self w = (Ret n, w') ->
  w' = w
  /\ 0 <= n <= MainRemovalStrategy._chunk_size self
  /\ (n = 0 -> MainRemovalStrategy._chunk_size self = 0)
  /\ exists r, In r (performance_datum (db w))
               /\ MainRemovalStrategy._max_timestamp self < pd_push_timestamp r.
Proof.
  unfold MainRemovalStrategy._find_ideal_chunk_size, qs_first, qs_slice_to. run_bind.
  destruct (order_by _ (filter _ _)) as [|newest rest] eqn:Ho; simpl; [discriminate|].
  destruct (MainRemovalStrategy._chunk_size self <? 0) eqn:Hneg; simpl; [discriminate|].
  intros H. injection H as Hn Hw. apply Z.ltb_ge in Hneg. split; [congruence|].
  subst n.
  match goal with
  | |- context [py_or ?x ?c] =>
      assert (Hx : 0 <= x <= c) by (split; [unfold len; lia|apply firstn_len_le; exact Hneg]);
      destruct (py_or_bounds x c Hx) as [Hb Hz]
  end.
  split; [exact Hb|]. split; [exact Hz|].
  apply order_by_head in Ho. destruct Ho as [Hin _].
  apply filter_In in Hin. destruct Hin as [Hin Hts].
  exists newest. split; [exact Hin|]. rewrite Z.gtb_ltb in Hts. apply Z.ltb_lt. exact Hts.
Qed.

Lemma try_chunk_size_inv (t : TryDataRemoval.t) (w : world) (n : Z)
  (s' : TryDataRemoval.t * world) :
  TryDataRemoval._find_ideal_chunk_size (t, w) = (Ret n, s') ->
  exists i,
    TryDataRemoval.try_repo (t, w) = (Ret i, (TryDataRemoval.set___try_repo_id (Some i) t, w))
    /\ s' = (TryDataRemoval.set___try_repo_id (Some i) t, w)
    /\ 0 <= n <= TryDataRemoval._chunk_size t
    /\ (n = 0 -> TryDataRemoval._chunk_size t = 0)
    /\ exists r, In r (performance_datum (db w))
                 /\ pd_repository_id r = i
                 /\ TryDataRemoval._max_timestamp t < pd_push_timestamp r.
Proof.
  unfold TryDataRemoval._find_ideal_chunk_size. intros H.
  apply bind_ret_inv in H. destruct H as (self & s0 & Hself & H).
  injection Hself as <- <-.
  apply bind_ret_inv in H. destruct H as (i & s1 & Hrepo & H).
  pose proof (try_repo_ret _ _ _ _ Hrepo) as ->.
  apply bind_ret_inv in H. destruct H as (rows & s2 & Hrows & H).
  injection Hrows as <- <-. simpl snd in H. simpl fst in H.
  apply bind_ret_inv in H. destruct H as (newest & s3 & Hfirst & H).
  unfold qs_first in Hfirst.
  destruct (order_by _ (filter _ _)) as [|top rest] eqn:Ho; [discriminate|].
  injection Hfirst as <- <-.
  apply bind_ret_inv in H. destruct H as (i' & s4 & Hrepo' & H).
  rewrite try_repo_cached in Hrepo'. injection Hrepo' as <- <-.
  apply bind_ret_inv in H. destruct H as (older & s5 & Hslice & H).
  unfold qs_slice_to in Hslice.
  destruct (TryDataRemoval._chunk_size t <? 0) eqn:Hneg; [discriminate|].
  injection Hslice as <- <-. injection H as <- <-. apply Z.ltb_ge in Hneg.
  exists i. split; [exact Hrepo|]. split; [reflexivity|].
  match goal with
  | |- context [py_or ?x ?c] =>
      assert (Hx : 0 <= x <= c) by (split; [unfold len; lia|apply firstn_len_le; exact Hneg]);
      destruct (py_or_bounds x c Hx) as [Hb Hz]
  end.
  split; [exact Hb|]. split; [exact Hz|].
  apply order_by_head in Ho. destruct Ho as [Hin _].
  apply filter_In in Hin. destruct Hin as [Hin Hp].
  apply andb_true_iff in Hp. destruct Hp as [Hts Hi].
  exists top. split; [exact Hin|]. split; [apply Z.eqb_eq; exact Hi|].
  rewrite Z.gtb_ltb in Hts. apply Z.ltb_lt. exact Hts.
Qed.

(** X2: a chunk sizer that returns, returns between 0 and the configured
    size, and 0 only when the configured size is 0; it leaves the world as
    it was (the scoped one has then cached the id of the [try]
    repository). *)
Theorem chunk_size_bounds :
  (forall self w w' n,
      MainRemovalStrategy._find_ideal_chunk_size self w = (Ret n, w') ->
      w' = w
      /\ 0 <= n <= MainRemovalStrategy._chunk_size self
      /\ (n = 0 -> MainRemovalStrategy._chunk_size self = 0))
  /\ (forall t w s' n,
      TryDataRemoval._find_ideal_chunk_size (t, w) = (Ret n, s') ->
      snd s' = w
      /\ (exists i, TryDataRemoval.__try_repo_id (fst s') = Some i)
      /\ 0 <= n <= TryDataRemoval._chunk_size t
      /\ (n = 0 -> TryDataRemoval._chunk_size t = 0)).
Proof.
  split.
  - intros self w w' n H. apply main_chunk_size_inv in H.
    destruct H as (Hw & Hb & Hz & _). auto.
  - intros t w s' n H. apply try_chunk_size_inv in H.
    destruct H as (i & _ & -> & Hb & Hz & _). simpl. eauto.
Qed.

Lemma chunk_size_bounds_witness :
  let w := world_at (store mixed_rows) (day 0) in
  let t := {| TryDataRemoval._cycle_interval := timedelta_weeks 4;
              TryDataRemoval._chunk_size := 1;
              TryDataRemoval._max_timestamp := day 0 - timedelta_weeks 4;
              TryDataRemoval.__try_repo_id := None |} in
  TryDataRemoval._find_ideal_chunk_size (t, w)
  = (Ret 1, (TryDataRemoval.set___try_repo_id (Some 4) t, w))
  /\ 0 <= 1 <= TryDataRemoval._chunk_size t.
Proof.
  cbv zeta.
  assert (Hrun : TryDataRemoval._find_ideal_chunk_size
                   ({| TryDataRemoval._cycle_interval := timedelta_weeks 4;
                       TryDataRemoval._chunk_size := 1;
                       TryDataRemoval._max_timestamp := day 0 - timedelta_weeks 4;
                       TryDataRemoval.__try_repo_id := None |},
                    world_at (store mixed_rows) (day 0))
                 = (Ret 1,
                    (TryDataRemoval.set___try_repo_id (Some 4)
                       {| TryDataRemoval._cycle_interval := timedelta_weeks 4;
                          TryDataRemoval._chunk_size := 1;
                          TryDataRemoval._max_timestamp := day 0 - timedelta_weeks 4;
                          TryDataRemoval.__try_repo_id := None |},
                     world_at (store mixed_rows) (day 0))))
    by (vm_compute; reflexivity).
  split; [exact Hrun|].
  destruct (proj2 chunk_size_bounds _ _ _ _ Hrun) as (_ & _ & Hb & _). exact Hb.
Defined.

Lemma main_remove_inv (self : MainRemovalStrategy.t) (w w' : world) (r : outcome unit) :
  MainRemovalStrategy.remove self w = (r, w') ->
  (r = Ret tt
   /\ exists n,
        MainRemovalStrategy._find_ideal_chunk_size self w = (Ret n, w)
        /\ 0 <= n <= MainRemovalStrategy._chunk_size self
        /\ (n = 0 -> MainRemovalStrategy._chunk_size self = 0)
        /\ w' = snd (record_statement
                       (DELETE_performance_datum None
                          (MainRemovalStrategy._max_timestamp self) n) w))
  \/ (r <> Ret tt /\ w' = w).
Proof.
  unfold MainRemovalStrategy.remove, bind.
  destruct (MainRemovalStrategy._find_ideal_chunk_size self w) as [[n|e|] w0] eqn:Hsize.
  - destruct (main_chunk_size_inv _ _ _ _ Hsize) as (-> & Hb & Hz & _).
    unfold cursor_execute.
    destruct (n <? 0) eqn:Hneg; [apply Z.ltb_lt in Hneg; lia|].
    intros H. injection H as <- <-. left. split; [reflexivity|].
    exists n. repeat split; try assumption; lia.
  - pose proof (main_chunk_size_world self w) as Hw. rewrite Hsize in Hw. simpl in Hw.
    intros H. injection H as <- <-. right. split; [discriminate|exact Hw].
  - pose proof (main_chunk_size_world self w) as Hw. rewrite Hsize in Hw. simpl in Hw.
    intros H. injection H as <- <-. right. split; [discriminate|exact Hw].
Qed.

Lemma try_remove_inv (t : TryDataRemoval.t) (w : world) (r : outcome unit)
  (s' : TryDataRemoval.t * world) :
  TryDataRemoval.remove (t, w) = (r, s') ->
  (r = Ret tt
   /\ exists i n,
        TryDataRemoval.try_repo (t, w)
        = (Ret i, (TryDataRemoval.set___try_repo_id (Some i) t, w))
        /\ 0 <= n <= TryDataRemoval._chunk_size t
        /\ (n = 0 -> TryDataRemoval._chunk_size t = 0)
        /\ s' = (TryDataRemoval.set___try_repo_id (Some i) t,
                 snd (record_statement
                        (DELETE_performance_datum (Some i)
                           (TryDataRemoval._max_timestamp t) n) w)))
  \/ (r <> Ret tt /\ snd s' = w).
Proof.
  unfold TryDataRemoval.remove. unfold bind at 1.
  destruct (TryDataRemoval._find_ideal_chunk_size (t, w)) as [[n|e|] [t1 w1]] eqn:Hsize.
  - destruct (try_chunk_size_inv _ _ _ _ Hsize) as (i & Hrepo & Hs & Hb & Hz & _).
    injection Hs as -> ->.
    unfold bind at 1. rewrite try_repo_cached.
    unfold bind, gets, on_world, cursor_execute. simpl fst. simpl snd.
    destruct (n <? 0) eqn:Hneg; [apply Z.ltb_lt in Hneg; lia|].
    intros H. injection H as <- <-. left. split; [reflexivity|].
    exists i, n. repeat split; try assumption; lia.
  - destruct (try_chunk_size_preserves (t, w)) as [Hw _]. rewrite Hsize in Hw. simpl in Hw.
    intros H. injection H as <- <-. right. split; [discriminate|exact Hw].
  - destruct (try_chunk_size_preserves (t, w)) as [Hw _]. rewrite Hsize in Hw. simpl in Hw.
    intros H. injection H as <- <-. right. split; [discriminate|exact Hw].
Qed.

(** X3: a [MainRemovalStrategy.remove] call that returns has executed one
    statement, the DELETE with the cutoff and a limit between 0 and the
    configured size (0 only if that size is 0); the log, the repositories,
    the jobs and the ancillary tables are as before.  A call that does not
    return normally has changed nothing at all. *)
Theorem main_remove_one_statement (self : MainRemovalStrategy.t) (w w' : world) :
  (MainRemovalStrategy.remove self w = (Ret tt, w') ->
   exists n,
     0 <= n <= MainRemovalStrategy._chunk_size self
     /\ (n = 0 -> MainRemovalStrategy._chunk_size self = 0)
     /\ executed w'
        = executed w
          ++ [DELETE_performance_datum None (MainRemovalStrategy._max_timestamp self) n]
     /\ performance_datum (db w')
        = delete_limit (where_clause None (MainRemovalStrategy._max_timestamp self))
            (Z.to_nat n) (performance_datum (db w))
     /\ log w' = log w
     /\ repository (db w') = repository (db w)
     /\ job (db w') = job (db w)
     /\ forall m, objects m (db w') = objects m (db w))
  /\ (forall r, r <> Ret tt -> MainRemovalStrategy.remove self w = (r, w') -> w' = w).
Proof.
  split.
  - intros H. apply main_remove_inv in H.
    destruct H as [(_ & n & _ & Hb & Hz & ->)|[Hne _]]; [|congruence].
    exists n. simpl. repeat split; try assumption; try lia.
  - intros r Hr H. apply main_remove_inv in H.
    destruct H as [(-> & _)|[_ Hw]]; [congruence|exact Hw].
Qed.

Lemma main_remove_one_statement_witness :
  let w := world_at (store mixed_rows) (day 0) in
  let self := {| MainRemovalStrategy._cycle_interval := timedelta_days 365;
                 MainRemovalStrategy._chunk_size := 2;
                 MainRemovalStrategy._max_timestamp := day 0 - timedelta_days 365 |} in
  exists w' n,
    MainRemovalStrategy.remove self w = (Ret tt, w')
    /\ 0 <= n <= 2
    /\ executed w' = [DELETE_performance_datum None (day 0 - timedelta_days 365) n].
Proof.
  cbv zeta. eexists.
  assert (Hrun : MainRemovalStrategy.remove
                   {| MainRemovalStrategy._cycle_interval := timedelta_days 365;
                      MainRemovalStrategy._chunk_size := 2;
                      MainRemovalStrategy._max_timestamp := day 0 - timedelta_days 365 |}
                   (world_at (store mixed_rows) (day 0))
                 = (Ret tt, snd (MainRemovalStrategy.remove
                   {| MainRemovalStrategy._cycle_interval := timedelta_days 365;
                      MainRemovalStrategy._chunk_size := 2;
                      MainRemovalStrategy._max_timestamp := day 0 - timedelta_days 365 |}
                   (world_at (store mixed_rows) (day 0))))) by (vm_compute; reflexivity).
  destruct (proj1 (main_remove_one_statement _ _ _) Hrun) as (n & Hb & _ & Hex & _).
  exists n. split; [exact Hrun|]. split; [exact Hb|exact Hex].
Defined.

(** ** Batches *)

Section DeleteLimitMore.

Context {A : Type} (p : A -> bool).

Lemma delete_limit_progress (n : nat) (l : list A) (x : A) :
  (0 < n)%nat -> In x l -> p x = true ->
  (List.length (delete_limit p n l) < List.length l)%nat.
Proof.
  intros Hn. induction l as [|y l IH]; intros Hin Hp; [destruct Hin|].
  destruct n as [|n]; [lia|]. simpl. destruct (p y) eqn:Hy.
  - destruct (delete_limit_deleted p n l) as (d & Hperm & _ & _).
    apply Permutation_length in Hperm. rewrite length_app in Hperm. simpl. lia.
  - simpl. destruct Hin as [->|Hin]; [congruence|].
    specialize (IH Hin Hp). lia.
Qed.

Lemma delete_limit_keeps (n : nat) (l : list A) (x : A) :
  In x l -> p x = false -> In x (delete_limit p n l).
Proof.
  revert n. induction l as [|y l IH]; intros n Hin Hp; [destruct Hin|].
  destruct n as [|n]; [exact Hin|]. simpl. destruct (p y) eqn:Hy.
  - destruct Hin as [->|Hin]; [congruence|]. apply IH; assumption.
  - destruct Hin as [->|Hin]; [left; reflexivity|]. right. apply IH; assumption.
Qed.

End DeleteLimitMore.

(** X4: one [remove] call of either strategy takes at most as many rows
    out of [performance_datum] as the configured chunk size, and none when
    that size is negative. *)
Theorem remove_batch_bounded (s : removal_strategy) (w : world) :
  exists deleted,
    Permutation (performance_datum (db w))
      (deleted ++ performance_datum (db (snd (snd (removal_strategy_remove (s, w))))))
    /\ len deleted <= Z.max 0 (removal_strategy_chunk_size s).
Proof.
  unfold removal_strategy_remove. destruct s as [m|t]; simpl fst; simpl snd.
  - unfold on_world. simpl fst. simpl snd.
    destruct (MainRemovalStrategy.remove m w) as [r w'] eqn:Hrun. simpl snd.
    apply main_remove_inv in Hrun.
    destruct Hrun as [(_ & n & _ & Hb & _ & ->)|[_ ->]].
    + simpl.
      destruct (delete_limit_deleted (where_clause None (MainRemovalStrategy._max_timestamp m))
                  (Z.to_nat n) (performance_datum (db w))) as (d & Hperm & _ & Hlen).
      exists d. split; [exact Hperm|]. unfold len. lia.
    + exists []. split; [apply Permutation_refl|]. unfold len. simpl. lia.
  - destruct (TryDataRemoval.remove (t, w)) as [r [t' w']] eqn:Hrun. simpl snd.
    apply try_remove_inv in Hrun.
    destruct Hrun as [(_ & i & n & _ & Hb & _ & Hs)|[_ Hw]].
    + injection Hs as -> ->. simpl.
      destruct (delete_limit_deleted
                  (where_clause (Some i) (TryDataRemoval._max_timestamp t))
                  (Z.to_nat n) (performance_datum (db w))) as (d & Hperm & _ & Hlen).
      exists d. split; [exact Hperm|]. unfold len. lia.
    + simpl in Hw. subst w'. exists []. split; [apply Permutation_refl|].
      unfold len. simpl. lia.
Qed.

(** X5: a [remove] call that returns, with a positive chunk size, makes
    progress whenever something is left to delete: if a row is strictly
    older than the cutoff (and, for the scoped strategy, belongs to the
    cached [try] repository), the table is shorter afterwards. *)
Theorem remove_progress :
  (forall self w w',
      MainRemovalStrategy.remove self w = (Ret tt, w') ->
      0 < MainRemovalStrategy._chunk_size self ->
      (exists r, In r (performance_datum (db w))
                 /\ pd_push_timestamp r < MainRemovalStrategy._max_timestamp self) ->
      len (performance_datum (db w')) < len (performance_datum (db w)))
  /\ (forall t w t' w' i,
      TryDataRemoval.remove (t, w) = (Ret tt, (t', w')) ->
      0 < TryDataRemoval._chunk_size t ->
      TryDataRemoval.__try_repo_id t' = Some i ->
      (exists r, In r (performance_datum (db w))
                 /\ pd_repository_id r = i
                 /\ pd_push_timestamp r < TryDataRemoval._max_timestamp t) ->
      len (performance_datum (db w')) < len (performance_datum (db w))).
Proof.
  split.
  - intros self w w' Hrun Hc (r & Hin & Hold). apply main_remove_inv in Hrun.
    destruct Hrun as [(_ & n & _ & Hb & Hz & ->)|[Hne _]]; [|congruence].
    simpl. unfold len. apply inj_lt.
    apply (delete_limit_progress _ (Z.to_nat n) _ r); [lia|exact Hin|].
    apply Z.ltb_lt. exact Hold.
  - intros t w t' w' i Hrun Hc Hcache (r & Hin & Hrepo & Hold). apply try_remove_inv in Hrun.
    destruct Hrun as [(_ & j & n & _ & Hb & Hz & Hs)|[Hne _]]; [|congruence].
    injection Hs as -> ->. simpl in Hcache. injection Hcache as ->.
    simpl. unfold len. apply inj_lt.
    apply (delete_limit_progress _ (Z.to_nat n) _ r); [lia|exact Hin|].
    simpl. apply andb_true_iff. split; [apply Z.eqb_eq; exact Hrepo|apply Z.ltb_lt; exact Hold].
Qed.

Lemma remove_progress_witness :
  let w := world_at (store mixed_rows) (day 0) in
  let self := {| MainRemovalStrategy._cycle_interval := timedelta_days 365;
                 MainRemovalStrategy._chunk_size := 2;
                 MainRemovalStrategy._max_timestamp := day 0 - timedelta_days 365 |} in
  let t := {| TryDataRemoval._cycle_interval := timedelta_weeks 4;
              TryDataRemoval._chunk_size := 100;
              TryDataRemoval._max_timestamp := day 0 - timedelta_weeks 4;
              TryDataRemoval.__try_repo_id := None |} in
  len (performance_datum (db (snd (MainRemovalStrategy.remove self w)))) < 7
  /\ len (performance_datum (db (snd (snd (TryDataRemoval.remove (t, w)))))) < 7.
Proof.
  cbv zeta. split.
  - apply (proj1 remove_progress
             {| MainRemovalStrategy._cycle_interval := timedelta_days 365;
                MainRemovalStrategy._chunk_size := 2;
                MainRemovalStrategy._max_timestamp := day 0 - timedelta_days 365 |}
             (world_at (store mixed_rows) (day 0))).
    + vm_compute. reflexivity.
    + simpl. lia.
    + exists (datum 1 4 (day (-400))). split; [simpl; tauto|vm_compute; reflexivity].
  - apply (proj2 remove_progress
             {| TryDataRemoval._cycle_interval := timedelta_weeks 4;
                TryDataRemoval._chunk_size := 100;
                TryDataRemoval._max_timestamp := day 0 - timedelta_weeks 4;
                TryDataRemoval.__try_repo_id := None |}
             (world_at (store mixed_rows) (day 0))
             (fst (snd (TryDataRemoval.remove
                          ({| TryDataRemoval._cycle_interval := timedelta_weeks 4;
                              TryDataRemoval._chunk_size := 100;
                              TryDataRemoval._max_timestamp := day 0 - timedelta_weeks 4;
                              TryDataRemoval.__try_repo_id := None |},
                           world_at (store mixed_rows) (day 0))))) _ 4).
    + vm_compute. reflexivity.
    + simpl. lia.
    + vm_compute. reflexivity.
    + exists (datum 1 4 (day (-400))).
      split; [simpl; tauto|]. split; [reflexivity|vm_compute; reflexivity].
Defined.

(** ** The scope of the scoped strategy *)

(** X6: the rows a [TryDataRemoval.remove] call takes out all belong to
    the repository whose id the object holds cached after the call, and
    are strictly older than the cutoff; a row of any other repository is
    still there afterwards. *)
Theorem try_remove_scope (t : TryDataRemoval.t) (w : world) (i : Z) :
  TryDataRemoval.__try_repo_id (fst (snd (TryDataRemoval.remove (t, w)))) = Some i ->
  (exists deleted,
     Permutation (performance_datum (db w))
       (deleted ++ performance_datum (db (snd (snd (TryDataRemoval.remove (t, w))))))
     /\ Forall (fun r => pd_repository_id r = i
                         /\ pd_push_timestamp r < TryDataRemoval._max_timestamp t) deleted)
  /\ (forall r, In r (performance_datum (db w)) -> pd_repository_id r <> i ->
                In r (performance_datum (db (snd (snd (TryDataRemoval.remove (t, w))))))).
Proof.
  destruct (TryDataRemoval.remove (t, w)) as [r [t' w']] eqn:Hrun. simpl. intros Hcache.
  apply try_remove_inv in Hrun.
  destruct Hrun as [(_ & j & n & _ & Hb & _ & Hs)|[_ Hw]].
  - injection Hs as -> ->. simpl in Hcache. injection Hcache as ->. simpl. split.
    + destruct (delete_limit_deleted
                  (where_clause (Some i) (TryDataRemoval._max_timestamp t))
                  (Z.to_nat n) (performance_datum (db w))) as (d & Hperm & Hall & _).
      exists d. split; [exact Hperm|]. eapply Forall_impl; [|exact Hall].
      intros x Hx. simpl in Hx. apply andb_true_iff in Hx. destruct Hx as [Hi Hts].
      split; [apply Z.eqb_eq; exact Hi|apply Z.ltb_lt; exact Hts].
    + intros x Hin Hrepo. apply delete_limit_keeps; [exact Hin|].
      simpl. apply andb_false_iff. left. apply Z.eqb_neq. exact Hrepo.
  - simpl in Hw. subst w'. split.
    + exists []. split; [apply Permutation_refl|constructor].
    + intros x Hin _. exact Hin.
Qed.

(** Four weeks before [day 0], out of [mixed_rows]: the rows 2 and 5 of
    repository 77 stay although they are old enough. *)
Lemma try_remove_scope_witness :
  let w := world_at (store mixed_rows) (day 0) in
  let t := {| TryDataRemoval._cycle_interval := timedelta_weeks 4;
              TryDataRemoval._chunk_size := 100;
              TryDataRemoval._max_timestamp := day 0 - timedelta_weeks 4;
              TryDataRemoval.__try_repo_id := None |} in
  In (datum 2 77 (day (-390)))
    (performance_datum (db (snd (snd (TryDataRemoval.remove (t, w))))))
  /\ In (datum 5 77 (day (-35)))
       (performance_datum (db (snd (snd (TryDataRemoval.remove (t, w)))))).
Proof.
  cbv zeta.
  destruct (try_remove_scope
              {| TryDataRemoval._cycle_interval := timedelta_weeks 4;
                 TryDataRemoval._chunk_size := 100;
                 TryDataRemoval._max_timestamp := day 0 - timedelta_weeks 4;
                 TryDataRemoval.__try_repo_id := None |}
              (world_at (store mixed_rows) (day 0)) 4) as [_ Hkeeps].
  - vm_compute. reflexivity.
  - split; apply Hkeeps; try (simpl; tauto); simpl; lia.
Defined.

(** ** The cached repository id *)

(** X7: once [try_repo] has returned an id, the object answers with that
    id from its cache in every later world, whatever the repository table
    then holds; the lookup itself changes nothing in the world. *)
Theorem try_repo_cached_for_good (t t' : TryDataRemoval.t) (w w' : world) (i : Z) :
  TryDataRemoval.try_repo (t, w) = (Ret i, (t', w')) ->
  w' = w
  /\ TryDataRemoval.__try_repo_id t' = Some i
  /\ forall w2, TryDataRemoval.try_repo (t', w2) = (Ret i, (t', w2)).
Proof.
  intros H. apply try_repo_ret in H. injection H as -> ->.
  split; [reflexivity|]. split; [reflexivity|]. intros w2. apply try_repo_cached.
Qed.

(** The id found on the store with the [try] repository is still answered
    on a store without any repository. *)
Lemma try_repo_cached_for_good_witness :
  let t := {| TryDataRemoval._cycle_interval := timedelta_weeks 4;
              TryDataRemoval._chunk_size := 100;
              TryDataRemoval._max_timestamp := day 0 - timedelta_weeks 4;
              TryDataRemoval.__try_repo_id := None |} in
  let t' := TryDataRemoval.set___try_repo_id (Some 4) t in
  let bare := {| performance_datum := []; repository := []; job := [];
                 job_type := []; job_group := []; machine := [] |} in
  TryDataRemoval.try_repo (t', world_at bare (day 1)) = (Ret 4, (t', world_at bare (day 1))).
Proof.
  cbv zeta.
  apply (try_repo_cached_for_good
           {| TryDataRemoval._cycle_interval := timedelta_weeks 4;
              TryDataRemoval._chunk_size := 100;
              TryDataRemoval._max_timestamp := day 0 - timedelta_weeks 4;
              TryDataRemoval.__try_repo_id := None |} _
           (world_at (store mixed_rows) (day 0)) (world_at (store mixed_rows) (day 0)) 4).
  reflexivity.
Defined.

(** X8: with nothing cached, a [remove] call on a store without a
    repository named [try] raises [DoesNotExist], and on a store with two
    of them [MultipleObjectsReturned]; either way no statement is executed
    and the cache stays empty, so the next call looks the repository up
    again. *)
Theorem try_remove_lookup_fails (t : TryDataRemoval.t) (w : world) :
  TryDataRemoval.__try_repo_id t = None ->
  (filter (fun r => String.eqb (repo_name r) "try") (repository (db w)) = [] ->
   TryDataRemoval.remove (t, w) = (Raise DoesNotExist_raised, (t, w)))
  /\ (forall r1 r2 rest,
        filter (fun r => String.eqb (repo_name r) "try") (repository (db w))
        = r1 :: r2 :: rest ->
        TryDataRemoval.remove (t, w) = (Raise MultipleObjectsReturned_raised, (t, w))).
Proof.
  intros Hcache.
  assert (Hstep : forall e,
             TryDataRemoval.try_repo (t, w) = (Raise e, (t, w)) ->
             TryDataRemoval.remove (t, w) = (Raise e, (t, w))).
  { intros e He. unfold TryDataRemoval.remove, TryDataRemoval._find_ideal_chunk_size.
    unfold bind at 1. unfold bind at 1. unfold gets at 1. unfold bind at 1.
    rewrite He. reflexivity. }
  split.
  - intros Hnone. apply Hstep.
    unfold TryDataRemoval.try_repo, Repository_objects_get. run_bind.
    rewrite Hcache. simpl. rewrite Hnone. reflexivity.
  - intros r1 r2 rest Htwo. apply Hstep.
    unfold TryDataRemoval.try_repo, Repository_objects_get. run_bind.
    rewrite Hcache. simpl. rewrite Htwo. reflexivity.
Qed.

Lemma try_remove_lookup_fails_witness :
  let t := {| TryDataRemoval._cycle_interval := timedelta_weeks 4;
              TryDataRemoval._chunk_size := 100;
              TryDataRemoval._max_timestamp := day 0 - timedelta_weeks 4;
              TryDataRemoval.__try_repo_id := None |} in
  let rows := [datum 1 4 (day (-60)); datum 2 4 (day (-1))] in
  let without := {| performance_datum := rows; repository := [autoland_repository];
                    job := []; job_type := []; job_group := []; machine := [] |} in
  let twice := {| performance_datum := rows;
                  repository := [try_repository; {| repo_id := 5; repo_name := "try" |}];
                  job := []; job_type := []; job_group := []; machine := [] |} in
  TryDataRemoval.remove (t, world_at without (day 0))
  = (Raise DoesNotExist_raised, (t, world_at without (day 0)))
  /\ TryDataRemoval.remove (t, world_at twice (day 0))
     = (Raise MultipleObjectsReturned_raised, (t, world_at twice (day 0))).
Proof.
  cbv zeta.
  pose (t := {| TryDataRemoval._cycle_interval := timedelta_weeks 4;
                TryDataRemoval._chunk_size := 100;
                TryDataRemoval._max_timestamp := day 0 - timedelta_weeks 4;
                TryDataRemoval.__try_repo_id := None |}).
  split.
  - apply (proj1 (try_remove_lookup_fails t _ eq_refl)). reflexivity.
  - apply (proj2 (try_remove_lookup_fails t _ eq_refl) try_repository
             {| repo_id := 5; repo_name := "try" |} []).
    reflexivity.
Defined.

(** ** Chunk sizes that are not positive *)

Section FuelFree.

Context {S : Type}.

Lemma fuel_free_ret {A : Type} (a : A) : fuel_free (@ret S A a).
Proof. intros s. discriminate. Qed.

Lemma fuel_free_raise {A : Type} (e : exn) : fuel_free (@raise S A e).
Proof. intros s. discriminate. Qed.

Lemma fuel_free_gets {A : Type} (f : S -> A) : fuel_free (gets f).
Proof. intros s. discriminate. Qed.

Lemma fuel_free_modify (f : S -> S) : fuel_free (modify f).
Proof. intros s. discriminate. Qed.

Lemma fuel_free_bind {A B : Type} (m : M S A) (k : A -> M S B) :
  fuel_free m -> (forall a, fuel_free (k a)) -> fuel_free (bind m k).
Proof.
  intros Hm Hk s. unfold bind. specialize (Hm s).
  destruct (m s) as [[a|e|] s1]; simpl in *; [apply Hk|discriminate|congruence].
Qed.

End FuelFree.

Lemma fuel_free_on_world {O A : Type} (m : M world A) :
  fuel_free m -> fuel_free (@on_world O world A m).
Proof.
  intros Hm s. unfold on_world. specialize (Hm (snd s)).
  destruct (m (snd s)) as [r w']. exact Hm.
Qed.

Lemma qs_first_fuel_free {S A : Type} (l : list A) : fuel_free (@qs_first S A l).
Proof. destruct l; [apply fuel_free_raise|apply fuel_free_ret]. Qed.

Lemma qs_slice_to_fuel_free {S A : Type} (l : list A) (n : Z) :
  fuel_free (@qs_slice_to S A l n).
Proof. unfold qs_slice_to. destruct (n <? 0); [apply fuel_free_raise|apply fuel_free_ret]. Qed.

Lemma cursor_execute_fuel_free (repo : option Z) (ts limit : Z) :
  fuel_free (cursor_execute repo ts limit).
Proof.
  unfold cursor_execute. destruct (limit <? 0); [apply fuel_free_raise|].
  apply fuel_free_modify.
Qed.

Lemma main_remove_fuel_free (self : MainRemovalStrategy.t) :
  fuel_free (MainRemovalStrategy.remove self).
Proof.
  unfold MainRemovalStrategy.remove, MainRemovalStrategy._find_ideal_chunk_size.
  repeat first
    [ apply fuel_free_gets
    | apply fuel_free_ret
    | apply qs_first_fuel_free
    | apply qs_slice_to_fuel_free
    | apply cursor_execute_fuel_free
    | apply fuel_free_bind; [|intros ?] ].
Qed.

Lemma try_repo_fuel_free : fuel_free TryDataRemoval.try_repo.
Proof.
  unfold TryDataRemoval.try_repo.
  apply fuel_free_bind; [apply fuel_free_gets|intros [i|]]; [apply fuel_free_ret|].
  apply fuel_free_bind; [|intros r].
  - apply fuel_free_on_world. unfold Repository_objects_get.
    apply fuel_free_bind; [apply fuel_free_gets|intros [|r [|r' rs]]];
      [apply fuel_free_raise|apply fuel_free_ret|apply fuel_free_raise].
  - apply fuel_free_bind; [apply fuel_free_modify|intros _; apply fuel_free_ret].
Qed.

Lemma try_remove_fuel_free : fuel_free TryDataRemoval.remove.
Proof.
  unfold TryDataRemoval.remove, TryDataRemoval._find_ideal_chunk_size.
  repeat first
    [ apply try_repo_fuel_free
    | apply fuel_free_gets
    | apply fuel_free_ret
    | apply qs_first_fuel_free
    | apply qs_slice_to_fuel_free
    | apply fuel_free_on_world; apply cursor_execute_fuel_free
    | apply fuel_free_bind; [|intros ?] ].
Qed.

(** X9: with a negative chunk size a [remove] call of either strategy
    raises and leaves the world as it was: nothing is ever deleted. *)
Theorem remove_negative_chunk_size (s : removal_strategy) (w : world) :
  removal_strategy_chunk_size s < 0 ->
  exists e,
    fst (removal_strategy_remove (s, w)) = Raise e
    /\ snd (snd (removal_strategy_remove (s, w))) = w.
Proof.
  unfold removal_strategy_remove. destruct s as [m|t]; simpl fst; simpl snd; intros Hneg.
  - unfold on_world. simpl fst. simpl snd.
    pose proof (main_remove_fuel_free m w) as Hfuel.
    destruct (MainRemovalStrategy.remove m w) as [r w'] eqn:Hrun. simpl in *.
    apply main_remove_inv in Hrun.
    destruct Hrun as [(_ & n & _ & Hb & _)|[Hne ->]]; [lia|].
    destruct r as [[]|e|]; [congruence| |congruence]. exists e. split; reflexivity.
  - pose proof (try_remove_fuel_free (t, w)) as Hfuel.
    destruct (TryDataRemoval.remove (t, w)) as [r [t' w']] eqn:Hrun. simpl in *.
    apply try_remove_inv in Hrun.
    destruct Hrun as [(_ & i & n & _ & Hb & _)|[Hne Hw]]; [lia|].
    simpl in Hw. subst w'.
    destruct r as [[]|e|]; [congruence| |congruence]. exists e. split; reflexivity.
Qed.

Lemma remove_negative_chunk_size_witness :
  let w := world_at (store mixed_rows) (day 0) in
  let self := {| MainRemovalStrategy._cycle_interval := timedelta_days 365;
                 MainRemovalStrategy._chunk_size := -1;
                 MainRemovalStrategy._max_timestamp := day 0 - timedelta_days 365 |} in
  exists e,
    fst (removal_strategy_remove (Main self, w)) = Raise e
    /\ snd (snd (removal_strategy_remove (Main self, w))) = w.
Proof.
  cbv zeta. apply remove_negative_chunk_size. simpl. lia.
Defined.

(** ** Pruning with a chunk size that is not positive *)

Lemma len_nonzero {A : Type} (l : list A) : l <> [] -> (len l =? 0) = false.
Proof.
  intros H. apply Z.eqb_neq. unfold len. destruct l; [contradiction|simpl; lia].
Qed.

(** X10: with a negative chunk size and at least one unreferenced id,
    [prune] raises on its first slice; no statement has been executed and
    the store is as it was. *)
Theorem prune_negative_chunk_size (fuel : nat) (self : DataCycler.t) (f : Job -> Z)
  (m : model) (w : world) :
  DataCycler.chunk_size self < 0 ->
  (0 < fuel)%nat ->
  TreeherderCycler.unused_ids f m (db w) <> [] ->
  exists e w',
    TreeherderCycler.prune fuel self f m w = (Raise e, w')
    /\ db w' = db w
    /\ executed w' = executed w.
Proof.
  intros Hneg Hfuel Hunused. unfold TreeherderCycler.prune.
  unfold bind at 1. unfold logger_warning at 1, logger_log at 1, modify at 1.
  unfold bind at 1. unfold gets at 1. cbn [db].
  unfold bind at 1. unfold logger_warning at 1, logger_log at 1, modify at 1.
  destruct fuel as [|fuel]; [lia|].
  rewrite prune_loop_unfold. cbn [items]. rewrite (len_nonzero _ Hunused).
  unfold bind at 1. cbn [slice_to]. unfold qs_slice_to.
  apply Z.ltb_lt in Hneg. rewrite Hneg.
  eexists. eexists. split; [reflexivity|]. split; reflexivity.
Qed.

Lemma prune_negative_chunk_size_witness :
  exists e w',
    TreeherderCycler.prune 9 (DataCycler.attributes 120 (-2) 0 None) machine_id Machine
      (world_at leftover_store (day 0)) = (Raise e, w')
    /\ db w' = leftover_store
    /\ executed w' = [].
Proof.
  apply (prune_negative_chunk_size 9 (DataCycler.attributes 120 (-2) 0 None) machine_id
           Machine (world_at leftover_store (day 0))).
  - simpl. lia.
  - lia.
  - discriminate.
Defined.

Lemma prune_loop_zero_chunk (self : DataCycler.t) (m : model) :
  DataCycler.chunk_size self = 0 ->
  forall (fuel : nat) (s : id_sequence) (w : world),
    items s <> [] ->
    exists w',
      TreeherderCycler.prune_loop fuel self m s w = (OutOfFuel, w')
      /\ db w' = db w
      /\ executed w' = executed w ++ repeat (DELETE_id__in m []) fuel.
Proof.
  intros Hc. induction fuel as [|fuel IH]; intros s w Hs;
    rewrite prune_loop_unfold, (len_nonzero _ Hs).
  - exists w. simpl. rewrite app_nil_r. repeat split.
  - rewrite Hc.
    destruct (slices_nonneg s 0 w) as [Hto _]; [lia|].
    unfold bind at 1. rewrite Hto. change (Z.to_nat 0) with 0%nat. cbn [firstn].
    unfold bind at 1. unfold logger_warning, logger_log, modify at 1.
    unfold bind at 1. unfold record_statement, modify at 1.
    match goal with
    | |- exists _, bind _ _ ?w0 = _ /\ _ => set (w1 := w0)
    end.
    destruct (slices_nonneg s 0 w1) as [_ Hfrom]; [lia|].
    unfold bind at 1. rewrite Hfrom. change (Z.to_nat 0) with 0%nat. cbn [skipn].
    destruct (IH (PyList (items s)) w1 Hs) as (w' & Hrun & Hdb & Hex).
    exists w'. split; [exact Hrun|]. split.
    + rewrite Hdb. unfold w1. cbn [db]. apply run_delete_nil.
    + rewrite Hex. unfold w1. cbn [executed]. rewrite <- app_assoc. reflexivity.
Qed.

(** X11: with chunk size 0 and at least one unreferenced id the loop of
    [prune] does not end: whatever the fuel, it is used up, each round
    having issued a DELETE over no ids; the store is as it was. *)
Theorem prune_zero_chunk_size (fuel : nat) (self : DataCycler.t) (f : Job -> Z)
  (m : model) (w : world) :
  DataCycler.chunk_size self = 0 ->
  TreeherderCycler.unused_ids f m (db w) <> [] ->
  exists w',
    TreeherderCycler.prune fuel self f m w = (OutOfFuel, w')
    /\ db w' = db w
    /\ executed w' = executed w ++ repeat (DELETE_id__in m []) fuel.
Proof.
  intros Hc Hunused. unfold TreeherderCycler.prune.
  unfold bind at 1. unfold logger_warning at 1, logger_log at 1, modify at 1.
  unfold bind at 1. unfold gets at 1. cbn [db].
  unfold bind at 1. unfold logger_warning at 1, logger_log at 1, modify at 1.
  match goal with
  | |- exists _, TreeherderCycler.prune_loop _ _ _ ?s ?w0 = _ /\ _ =>
      destruct (prune_loop_zero_chunk self m Hc fuel s w0 Hunused) as (w' & Hrun & Hdb & Hex)
  end.
  exists w'. split; [exact Hrun|]. split; [exact Hdb|exact Hex].
Qed.

Lemma prune_zero_chunk_size_witness :
  exists w',
    TreeherderCycler.prune 50 (DataCycler.attributes 120 0 0 None) machine_id Machine
      (world_at leftover_store (day 0)) = (OutOfFuel, w')
    /\ db w' = leftover_store
    /\ executed w' = repeat (DELETE_id__in Machine []) 50.
Proof.
  apply (prune_zero_chunk_size 50 (DataCycler.attributes 120 0 0 None) machine_id Machine
           (world_at leftover_store (day 0))).
  - reflexivity.
  - discriminate.
Defined.

(** ** Pruning twice *)

Lemma prune_nothing (fuel : nat) (self : DataCycler.t) (f : Job -> Z) (m : model)
  (w : world) :
  TreeherderCycler.unused_ids f m (db w) = [] ->
  exists w',
    TreeherderCycler.prune fuel self f m w = (Ret tt, w')
    /\ db w' = db w
    /\ executed w' = executed w.
Proof.
  intros Hnone. unfold TreeherderCycler.prune.
  unfold bind at 1. unfold logger_warning at 1, logger_log at 1, modify at 1.
  unfold bind at 1. unfold gets at 1. cbn [db]. rewrite Hnone.
  unfold bind at 1. unfold logger_warning at 1, logger_log at 1, modify at 1.
  rewrite prune_loop_unfold. cbn [items].
  eexists. split; [reflexivity|]. split; reflexivity.
Qed.

Lemma unused_ids_nil (f : Job -> Z) (m : model) (d : database) :
  (forall a, In a (objects m d) -> exists j, In j (job d) /\ f j = anc_id a) ->
  TreeherderCycler.unused_ids f m d = [].
Proof.
  intros H. unfold TreeherderCycler.unused_ids. rewrite filter_nil_none; [reflexivity|].
  intros a Ha. apply negb_false_iff. apply used_ids_spec. apply H. exact Ha.
Qed.

Lemma remove_leftovers_no_orphans (fuel : nat) (self : DataCycler.t) (w : world) :
  (forall m a, In a (objects m (db w)) ->
               exists j, In j (job (db w)) /\ foreign_key m j = anc_id a) ->
  exists w',
    TreeherderCycler.remove_leftovers fuel self w = (Ret tt, w')
    /\ db w' = db w
    /\ executed w' = executed w.
Proof.
  intros Hall. unfold TreeherderCycler.remove_leftovers.
  unfold bind at 1. unfold logger_warning at 1, logger_log at 1, modify at 1.
  match goal with |- exists _, bind _ _ ?w0 = _ /\ _ => set (v0 := w0) end.
  destruct (prune_nothing fuel self job_type_id JobType v0) as (v1 & H1 & D1 & E1).
  { apply unused_ids_nil. exact (Hall JobType). }
  unfold bind at 1. rewrite H1.
  destruct (prune_nothing fuel self job_group_id JobGroup v1) as (v2 & H2 & D2 & E2).
  { apply unused_ids_nil. rewrite D1. exact (Hall JobGroup). }
  unfold bind at 1. rewrite H2.
  destruct (prune_nothing fuel self machine_id Machine v2) as (v3 & H3 & D3 & E3).
  { apply unused_ids_nil. rewrite D2, D1. exact (Hall Machine). }
  exists v3. split; [exact H3|]. split.
  - rewrite D3, D2, D1. reflexivity.
  - rewrite E3, E2, E1. reflexivity.
Qed.

(** X12: when every row of the three ancillary tables is referred to by
    some job, [remove_leftovers] returns without executing any statement
    and leaves the store as it was, for every chunk size, zero and
    negative ones included. *)
Theorem remove_leftovers_nothing_to_prune (fuel : nat) (self : DataCycler.t) (w : world) :
  (forall m a, In a (objects m (db w)) ->
               exists j, In j (job (db w)) /\ foreign_key m j = anc_id a) ->
  exists w',
    TreeherderCycler.remove_leftovers fuel self w = (Ret tt, w')
    /\ db w' = db w
    /\ executed w' = executed w.
Proof. apply remove_leftovers_no_orphans. Qed.

Lemma remove_leftovers_nothing_to_prune_witness :
  exists w',
    TreeherderCycler.remove_leftovers 0 (DataCycler.attributes 120 0 0 None)
      (world_at (pruned leftover_store) (day 0)) = (Ret tt, w')
    /\ db w' = pruned leftover_store
    /\ executed w' = [].
Proof.
  apply (remove_leftovers_nothing_to_prune 0 (DataCycler.attributes 120 0 0 None)
           (world_at (pruned leftover_store) (day 0))).
  intros m a Ha.
  exists {| job_id := 1; job_type_id := 10; job_group_id := 20; machine_id := 30 |}.
  split; [left; reflexivity|].
  destruct m; simpl in Ha; destruct Ha as [<-|[]]; reflexivity.
Defined.

(** X13: pruning is idempotent.  On the store a completed
    [remove_leftovers] leaves behind, a second pass returns without
    executing any statement and without changing the store, whatever its
    chunk size and fuel. *)
Theorem remove_leftovers_idempotent (fuel : nat) (self : DataCycler.t) (w w1 : world) :
  TreeherderCycler.remove_leftovers fuel self w = (Ret tt, w1) ->
  forall (fuel2 : nat) (self2 : DataCycler.t) (w2 : world),
    db w2 = db w1 ->
    exists w3,
      TreeherderCycler.remove_leftovers fuel2 self2 w2 = (Ret tt, w3)
      /\ db w3 = db w2
      /\ executed w3 = executed w2.
Proof.
  intros Hrun fuel2 self2 w2 Hdb. apply remove_leftovers_db in Hrun.
  apply remove_leftovers_no_orphans. rewrite Hdb, Hrun.
  intros m a Ha. apply pruned_objects in Ha. destruct Ha as [_ Hj]. exact Hj.
Qed.

Lemma remove_leftovers_idempotent_witness :
  let self := DataCycler.attributes 120 2 0 None in
  let w1 := snd (TreeherderCycler.remove_leftovers 6 self (world_at leftover_store (day 0))) in
  exists w3,
    TreeherderCycler.remove_leftovers 6 self w1 = (Ret tt, w3)
    /\ db w3 = db w1
    /\ executed w3 = executed w1.
Proof.
  cbv zeta.
  apply (remove_leftovers_idempotent 6 (DataCycler.attributes 120 2 0 None)
           (world_at leftover_store (day 0))
           (snd (TreeherderCycler.remove_leftovers 6 (DataCycler.attributes 120 2 0 None)
                   (world_at leftover_store (day 0))))).
  - vm_compute. reflexivity.
  - reflexivity.
Defined.

(** ** The other ways through [TreeherderCycler.cycle] *)

(** X14: when [Job.objects.cycle_data] returns [n], [cycle] logs
    [Deleted n jobs] and goes on with [remove_leftovers]; when it raises an
    exception of a class other than [OperationalError], [cycle] raises
    that exception at once and the pruning does not run. *)
Theorem treeherder_cycle_other_paths
  (Job_objects_cycle_data : Z -> Z -> Z -> M world Z) (fuel : nat) (self : DataCycler.t)
  (w w1 : world) :
  let started := logged WARNING "Cycling jobs across all repositories" w in
  (forall n,
      Job_objects_cycle_data (DataCycler.cycle_interval self) (DataCycler.chunk_size self)
        (DataCycler.sleep_time self) started = (Ret n, w1) ->
      TreeherderCycler.cycle Job_objects_cycle_data fuel self w
      = TreeherderCycler.remove_leftovers fuel self
          (logged WARNING ("Deleted " ++ string_of_Z n ++ " jobs") w1))
  /\ (forall e,
        Job_objects_cycle_data (DataCycler.cycle_interval self) (DataCycler.chunk_size self)
          (DataCycler.sleep_time self) started = (Raise e, w1) ->
        exn_cls e <> OperationalError ->
        TreeherderCycler.cycle Job_objects_cycle_data fuel self w = (Raise e, w1)).
Proof.
  cbv zeta. split.
  - intros n Hcd. unfold TreeherderCycler.cycle.
    unfold bind at 1. unfold logger_warning at 1, logger_log at 1, modify at 1.
    unfold bind at 1. unfold try_except. unfold bind at 1.
    unfold logged in Hcd. rewrite Hcd. reflexivity.
  - intros e Hcd Hcls. unfold TreeherderCycler.cycle.
    unfold bind at 1. unfold logger_warning at 1, logger_log at 1, modify at 1.
    unfold bind at 1. unfold try_except. unfold bind at 1.
    unfold logged in Hcd. rewrite Hcd. rewrite (isinstance_false _ _ Hcls). reflexivity.
Qed.

Lemma treeherder_cycle_other_paths_witness :
  let self := DataCycler.attributes 120 2 0 None in
  let w := world_at leftover_store (day 0) in
  (exists w',
     TreeherderCycler.cycle (deleting_cycle_data 250) 6 self w = (Ret tt, w')
     /\ In (WARNING, "Deleted 250 jobs"%string) (log w')
     /\ db w' = pruned leftover_store)
  /\ (exists e,
        TreeherderCycler.cycle denied_cycle_data 6 self w
        = (Raise e, logged WARNING "Cycling jobs across all repositories" w)).
Proof.
  cbv zeta. split.
  - eexists. split; [|split].
    + rewrite (proj1 (treeherder_cycle_other_paths (deleting_cycle_data 250) 6
                        (DataCycler.attributes 120 2 0 None) (world_at leftover_store (day 0))
                        (logged WARNING "Cycling jobs across all repositories"
                           (world_at leftover_store (day 0)))) 250 eq_refl).
      vm_compute. reflexivity.
    + vm_compute. tauto.
    + vm_compute. reflexivity.
  - eexists.
    apply (proj2 (treeherder_cycle_other_paths denied_cycle_data 6
                    (DataCycler.attributes 120 2 0 None) (world_at leftover_store (day 0))
                    (logged WARNING "Cycling jobs across all repositories"
                       (world_at leftover_store (day 0))))).
    + reflexivity.
    + discriminate.
Defined.

(** ** Choosing the cycler *)

Lemma split_colon_free (s : string) : colon_free s = true -> split_colon s = [s].
Proof.
  induction s as [|c s IH]; simpl; intros H; [reflexivity|].
  apply andb_true_iff in H. destruct H as [Hc Hs]. apply negb_true_iff in Hc.
  rewrite Hc, (IH Hs). reflexivity.
Qed.

Lemma split_colon_at (prefix rest : string) :
  colon_free prefix = true ->
  split_colon (prefix ++ String ":"%char rest) = prefix :: split_colon rest.
Proof.
  induction prefix as [|c p IH]; simpl; intros H; [reflexivity|].
  apply andb_true_iff in H. destruct H as [Hc Hp]. apply negb_true_iff in Hc.
  rewrite Hc, (IH Hp). reflexivity.
Qed.

Lemma data_source_nonempty (prefix rest : string) :
  exists c s, (prefix ++ String ":"%char rest)%string = String c s.
Proof. destruct prefix as [|c p]; simpl; eauto. Qed.

Lemma string_app_nil_r (s : string) : (s ++ "")%string = s.
Proof. induction s as [|c s IH]; simpl; [reflexivity|]. rewrite IH. reflexivity. Qed.

(** The key is what stands before the next colon, or before the end. *)
Lemma split_colon_key (key rest : string) :
  colon_free key = true ->
  rest = ""%string \/ (exists r, rest = String ":"%char r) ->
  exists others, split_colon (key ++ rest) = key :: others.
Proof.
  intros Hkey [->|(r & ->)].
  - exists []. rewrite string_app_nil_r. apply split_colon_free. exact Hkey.
  - exists (split_colon r). apply split_colon_at. exact Hkey.
Qed.

Lemma fabricate_data_cycler_key (SITE_HOSTNAME : string) (o : Command.options)
  (prefix key rest : string) (w : world) :
  colon_free prefix = true ->
  colon_free key = true ->
  rest = ""%string \/ (exists r, rest = String ":"%char r) ->
  Command.data_source o = Some (prefix ++ String ":"%char (key ++ rest))%string ->
  Command.fabricate_data_cycler SITE_HOSTNAME o w
  = match Command.CYCLER_CLASSES key with
    | None => (Raise (KeyError key), w)
    | Some Command.TreeherderCycler_cls =>
        (c <- DataCycler.__init__ (Command.days o) (Command.chunk_size o)
                (Command.sleep_time o) (Some (Command.is_debug o)) ;;
         ret {| Command.cls := Command.TreeherderCycler_cls;
                Command.self := c |}) w
    | Some Command.PerfherderCycler_cls =>
        (c <- PerfherderCycler.__init__ SITE_HOSTNAME (Command.days o)
                (Command.chunk_size o) (Command.sleep_time o)
                (Some (Command.is_debug o)) ;;
         ret {| Command.cls := Command.PerfherderCycler_cls;
                Command.self := c |}) w
    end.
Proof.
  intros Hprefix Hkey Hrest Hsource.
  unfold Command.fabricate_data_cycler. rewrite Hsource.
  destruct (data_source_nonempty prefix (key ++ rest)) as (c & s & Hs).
  rewrite Hs. rewrite <- Hs.
  rewrite split_colon_at by exact Hprefix.
  destruct (split_colon_key key rest Hkey Hrest) as [others Hothers]. rewrite Hothers.
  destruct (Command.CYCLER_CLASSES key) as [[|]|]; reflexivity.
Qed.

Lemma perfherder_init_accepts (SITE_HOSTNAME : string) (days chunk_size sleep_time : Z)
  (is_debug : option bool) (w : world) :
  Z.abs days <= TIMEDELTA_MAX_DAYS ->
  365 <= days \/ SITE_HOSTNAME = prototype_hostname ->
  PerfherderCycler.__init__ SITE_HOSTNAME days chunk_size sleep_time is_debug w
  = (Ret (DataCycler.attributes days chunk_size sleep_time is_debug), w).
Proof.
  intros Hrange H. unfold PerfherderCycler.__init__, bind.
  rewrite datacycler_init_in_range by exact Hrange. destruct H as [Hdays | ->].
  - replace (days <? MINIMUM_PERFHERDER_EXPIRE_INTERVAL) with false; [reflexivity|].
    symmetry. apply Z.ltb_ge. exact Hdays.
  - rewrite andb_comm. reflexivity.
Qed.

Lemma perfherder_init_out_of_range (SITE_HOSTNAME : string)
  (days chunk_size sleep_time : Z) (is_debug : option bool) (w : world) :
  TIMEDELTA_MAX_DAYS < Z.abs days ->
  exists e,
    PerfherderCycler.__init__ SITE_HOSTNAME days chunk_size sleep_time is_debug w
    = (Raise e, w)
    /\ exn_cls e = OverflowError.
Proof.
  intros Hrange.
  destruct (datacycler_init_out_of_range days chunk_size sleep_time is_debug w Hrange)
    as (e & He & Hcls).
  exists e. split; [|exact Hcls].
  unfold PerfherderCycler.__init__, bind. rewrite He. reflexivity.
Qed.

(** X15: only the part of the sub-command between its first and second
    colon (or the end, when there is no second colon) chooses the cycler;
    what stands before the first colon and after the second is not looked
    at.  For [days] that [datetime.timedelta] accepts, [treeherder] builds
    the Treeherder cycler whatever the interval, and [perfherder] builds
    the Perfherder cycler when the floor allows; any other key raises
    [KeyError]. *)
Theorem fabricate_data_cycler_dispatch (SITE_HOSTNAME : string) (o : Command.options)
  (prefix key rest : string) (w : world) :
  colon_free prefix = true ->
  colon_free key = true ->
  rest = ""%string \/ (exists r, rest = String ":"%char r) ->
  Command.data_source o = Some (prefix ++ String ":"%char (key ++ rest))%string ->
  (key = TREEHERDER ->
     Z.abs (Command.days o) <= TIMEDELTA_MAX_DAYS ->
     Command.fabricate_data_cycler SITE_HOSTNAME o w
     = (Ret {| Command.cls := Command.TreeherderCycler_cls;
               Command.self := DataCycler.attributes (Command.days o) (Command.chunk_size o)
                                 (Command.sleep_time o) (Some (Command.is_debug o)) |}, w))
  /\ (key = PERFHERDER ->
      Z.abs (Command.days o) <= TIMEDELTA_MAX_DAYS ->
      365 <= Command.days o \/ SITE_HOSTNAME = prototype_hostname ->
      Command.fabricate_data_cycler SITE_HOSTNAME o w
      = (Ret {| Command.cls := Command.PerfherderCycler_cls;
                Command.self := DataCycler.attributes (Command.days o) (Command.chunk_size o)
                                  (Command.sleep_time o) (Some (Command.is_debug o)) |}, w))
  /\ (key <> TREEHERDER -> key <> PERFHERDER ->
      exists msg,
        Command.fabricate_data_cycler SITE_HOSTNAME o w
        = (Raise {| exn_cls := OtherException "KeyError"; exn_msg := msg |}, w)).
Proof.
  intros Hprefix Hkey Hrest Hsource.
  rewrite (fabricate_data_cycler_key SITE_HOSTNAME o prefix key rest w
             Hprefix Hkey Hrest Hsource).
  split; [|split].
  - intros -> Hrange. simpl. unfold bind.
    rewrite datacycler_init_in_range by exact Hrange. reflexivity.
  - intros -> Hrange Hfloor. simpl. unfold bind.
    rewrite perfherder_init_accepts by assumption. reflexivity.
  - intros Ht Hp. unfold Command.CYCLER_CLASSES.
    apply String.eqb_neq in Ht, Hp. rewrite Ht, Hp. eexists. reflexivity.
Qed.

Lemma fabricate_data_cycler_dispatch_witness :
  let w := world_at leftover_store (day 0) in
  Command.fabricate_data_cycler "treeherder.mozilla.org"
    (default_options (Some "anything:treeherder:extra"%string)) w
  = (Ret {| Command.cls := Command.TreeherderCycler_cls;
            Command.self := DataCycler.attributes 120 100 0 (Some false) |}, w)
  /\ Command.fabricate_data_cycler "treeherder.mozilla.org"
       (perfherder_options 400) w
     = (Ret {| Command.cls := Command.PerfherderCycler_cls;
               Command.self := DataCycler.attributes 400 100 0 (Some false) |}, w)
  /\ (exists msg,
        Command.fabricate_data_cycler "treeherder.mozilla.org"
          (default_options (Some "from:autoland"%string)) w
        = (Raise {| exn_cls := OtherException "KeyError"; exn_msg := msg |}, w)).
Proof.
  cbv zeta. split; [|split].
  - apply (proj1 (fabricate_data_cycler_dispatch "treeherder.mozilla.org"
                    (default_options (Some "anything:treeherder:extra"%string))
                    "anything" "treeherder" ":extra" (world_at leftover_store (day 0))
                    eq_refl eq_refl (or_intror (ex_intro _ "extra"%string eq_refl))
                    eq_refl)).
    + reflexivity.
    + vm_compute. discriminate.
  - apply (proj1 (proj2 (fabricate_data_cycler_dispatch "treeherder.mozilla.org"
                           (perfherder_options 400)
                           "from" "perfherder" "" (world_at leftover_store (day 0))
                           eq_refl eq_refl (or_introl eq_refl) eq_refl))).
    + reflexivity.
    + vm_compute. discriminate.
    + left. simpl. lia.
  - apply (proj2 (proj2 (fabricate_data_cycler_dispatch "treeherder.mozilla.org"
                           (default_options (Some "from:autoland"%string))
                           "from" "autoland" "" (world_at leftover_store (day 0))
                           eq_refl eq_refl (or_introl eq_refl) eq_refl))); discriminate.
Defined.

(** X16: without a sub-command, or with an empty one, the Treeherder
    cycler is built for every [days] that [datetime.timedelta] accepts,
    below the Perfherder floor too; for [days] of a larger magnitude the
    construction raises [OverflowError].  A sub-command that is not empty
    and holds no colon raises [IndexError], whatever [days]. *)
Theorem fabricate_data_cycler_default (SITE_HOSTNAME : string) (o : Command.options)
  (w : world) :
  (Command.data_source o = None \/ Command.data_source o = Some ""%string ->
   Z.abs (Command.days o) <= TIMEDELTA_MAX_DAYS ->
   Command.fabricate_data_cycler SITE_HOSTNAME o w
   = (Ret {| Command.cls := Command.TreeherderCycler_cls;
             Command.self := DataCycler.attributes (Command.days o) (Command.chunk_size o)
                               (Command.sleep_time o) (Some (Command.is_debug o)) |}, w))
  /\ (Command.data_source o = None \/ Command.data_source o = Some ""%string ->
      TIMEDELTA_MAX_DAYS < Z.abs (Command.days o) ->
      exists e,
        Command.fabricate_data_cycler SITE_HOSTNAME o w = (Raise e, w)
        /\ exn_cls e = OverflowError)
  /\ (forall s,
        Command.data_source o = Some s -> s <> ""%string -> colon_free s = true ->
        Command.fabricate_data_cycler SITE_HOSTNAME o w = (Raise IndexError_raised, w)).
Proof.
  assert (Hdefault :
            Command.data_source o = None \/ Command.data_source o = Some ""%string ->
            Command.fabricate_data_cycler SITE_HOSTNAME o w
            = (c <- DataCycler.__init__ (Command.days o) (Command.chunk_size o)
                      (Command.sleep_time o) (Some (Command.is_debug o)) ;;
               ret {| Command.cls := Command.TreeherderCycler_cls;
                      Command.self := c |}) w).
  { intros [H|H]; unfold Command.fabricate_data_cycler; rewrite H; reflexivity. }
  split; [|split].
  - intros Hsource Hrange. rewrite (Hdefault Hsource). unfold bind.
    rewrite datacycler_init_in_range by exact Hrange. reflexivity.
  - intros Hsource Hrange. rewrite (Hdefault Hsource). unfold bind.
    destruct (datacycler_init_out_of_range (Command.days o) (Command.chunk_size o)
                (Command.sleep_time o) (Some (Command.is_debug o)) w Hrange)
      as (e & He & Hcls).
    rewrite He. exists e. split; [reflexivity|exact Hcls].
  - intros s Hs Hne Hfree. unfold Command.fabricate_data_cycler. rewrite Hs.
    destruct s as [|c s']; [contradiction|].
    rewrite split_colon_free by exact Hfree. reflexivity.
Qed.

Lemma fabricate_data_cycler_default_witness :
  let w := world_at leftover_store (day 0) in
  Command.fabricate_data_cycler "treeherder.mozilla.org" (default_options None) w
  = (Ret {| Command.cls := Command.TreeherderCycler_cls;
            Command.self := DataCycler.attributes 120 100 0 (Some false) |}, w)
  /\ (exists e,
        Command.fabricate_data_cycler "treeherder.mozilla.org"
          {| Command.is_debug := false; Command.days := 1000000000;
             Command.chunk_size := 100; Command.sleep_time := 0;
             Command.data_source := None |} w = (Raise e, w)
        /\ exn_cls e = OverflowError)
  /\ Command.fabricate_data_cycler "treeherder.mozilla.org"
       (default_options (Some "perfherder"%string)) w
     = (Raise IndexError_raised, w).
Proof.
  cbv zeta. split; [|split].
  - apply (proj1 (fabricate_data_cycler_default "treeherder.mozilla.org"
                    (default_options None) (world_at leftover_store (day 0)))).
    + left. reflexivity.
    + vm_compute. discriminate.
  - apply (proj1 (proj2 (fabricate_data_cycler_default "treeherder.mozilla.org"
                           {| Command.is_debug := false; Command.days := 1000000000;
                              Command.chunk_size := 100; Command.sleep_time := 0;
                              Command.data_source := None |}
                           (world_at leftover_store (day 0))))).
    + left. reflexivity.
    + vm_compute. reflexivity.
  - apply (proj2 (proj2 (fabricate_data_cycler_default "treeherder.mozilla.org"
                           (default_options (Some "perfherder"%string))
                           (world_at leftover_store (day 0)))) "perfherder"%string).
    + reflexivity.
    + discriminate.
    + reflexivity.
Defined.

(** ** The command as a whole *)

(** X17: [handle] first logs the interval, then builds the cycler, logs
    the source and runs the cycler.  For [days] that [datetime.timedelta]
    accepts: without a sub-command that is [TreeherderCycler.cycle],
    below the Perfherder floor too, and with [from:perfherder] and an
    interval the floor allows it is [PerfherderCycler.cycle].  For [days]
    of a larger magnitude [handle] raises [OverflowError] right after the
    first log line, for either source. *)
Theorem handle_runs_the_cycler (SITE_HOSTNAME : string)
  (Job_objects_cycle_data : Z -> Z -> Z -> M world Z)
  (PerformanceDatum_objects_cycle_data : list removal_strategy -> Z -> Z -> M world unit)
  (fuel : nat) (o : Command.options) (w : world) :
  let self := DataCycler.attributes (Command.days o) (Command.chunk_size o)
                (Command.sleep_time o) (Some (Command.is_debug o)) in
  let announced :=
    logged WARNING ("Cycle interval... " ++ string_of_Z (Command.days o) ++ " days") w in
  (Command.data_source o = None ->
   Z.abs (Command.days o) <= TIMEDELTA_MAX_DAYS ->
   Command.handle SITE_HOSTNAME Job_objects_cycle_data PerformanceDatum_objects_cycle_data
     fuel o w
   = TreeherderCycler.cycle Job_objects_cycle_data fuel self
       (logged WARNING "Cycling Treeherder data..." announced))
  /\ (Command.data_source o = Some PERFHERDER_SUBCOMMAND ->
      Z.abs (Command.days o) <= TIMEDELTA_MAX_DAYS ->
      365 <= Command.days o \/ SITE_HOSTNAME = prototype_hostname ->
      Command.handle SITE_HOSTNAME Job_objects_cycle_data PerformanceDatum_objects_cycle_data
        fuel o w
      = PerfherderCycler.cycle PerformanceDatum_objects_cycle_data self
          (logged WARNING "Cycling Perfherder data..." announced))
  /\ (Command.data_source o = None \/ Command.data_source o = Some PERFHERDER_SUBCOMMAND ->
      TIMEDELTA_MAX_DAYS < Z.abs (Command.days o) ->
      exists e,
        Command.handle SITE_HOSTNAME Job_objects_cycle_data
          PerformanceDatum_objects_cycle_data fuel o w = (Raise e, announced)
        /\ exn_cls e = OverflowError).
Proof.
  cbv zeta.
  assert (Htree : Command.data_source o = None ->
                  forall v,
                    Command.fabricate_data_cycler SITE_HOSTNAME o v
                    = (c <- DataCycler.__init__ (Command.days o) (Command.chunk_size o)
                              (Command.sleep_time o) (Some (Command.is_debug o)) ;;
                       ret {| Command.cls := Command.TreeherderCycler_cls;
                              Command.self := c |}) v).
  { intros H v. unfold Command.fabricate_data_cycler. rewrite H. reflexivity. }
  assert (Hperf : Command.data_source o = Some PERFHERDER_SUBCOMMAND ->
                  forall v,
                    Command.fabricate_data_cycler SITE_HOSTNAME o v
                    = (c <- PerfherderCycler.__init__ SITE_HOSTNAME (Command.days o)
                              (Command.chunk_size o) (Command.sleep_time o)
                              (Some (Command.is_debug o)) ;;
                       ret {| Command.cls := Command.PerfherderCycler_cls;
                              Command.self := c |}) v).
  { intros H v.
    apply (fabricate_data_cycler_key SITE_HOSTNAME o "from" "perfherder" "" v
             eq_refl eq_refl (or_introl eq_refl) H). }
  split; [|split].
  - intros Hsource Hrange. unfold Command.handle.
    unfold bind at 1. unfold logger_warning at 1, logger_log at 1, modify at 1.
    unfold bind at 1. rewrite (Htree Hsource). unfold bind at 1.
    rewrite datacycler_init_in_range by exact Hrange. reflexivity.
  - intros Hsource Hrange Hfloor. unfold Command.handle.
    unfold bind at 1. unfold logger_warning at 1, logger_log at 1, modify at 1.
    unfold bind at 1. rewrite (Hperf Hsource). unfold bind at 1.
    rewrite perfherder_init_accepts by assumption. reflexivity.
  - intros Hsource Hrange. unfold Command.handle.
    unfold bind at 1. unfold logger_warning at 1, logger_log at 1, modify at 1.
    unfold bind at 1. destruct Hsource as [Hsource|Hsource].
    + rewrite (Htree Hsource). unfold bind at 1.
      match goal with
      | |- context [DataCycler.__init__ ?d ?c ?s ?b ?v] =>
          destruct (datacycler_init_out_of_range d c s b v Hrange) as (e & He & Hcls)
      end.
      rewrite He. exists e. split; [reflexivity|exact Hcls].
    + rewrite (Hperf Hsource). unfold bind at 1.
      match goal with
      | |- context [PerfherderCycler.__init__ ?h ?d ?c ?s ?b ?v] =>
          destruct (perfherder_init_out_of_range h d c s b v Hrange) as (e & He & Hcls)
      end.
      rewrite He. exists e. split; [reflexivity|exact Hcls].
Qed.

Lemma handle_runs_the_cycler_witness :
  let w := world_at leftover_store (day 0) in
  (exists w',
     Command.handle "treeherder.mozilla.org" (deleting_cycle_data 3) (guarded_cycle_data 5) 6
       {| Command.is_debug := false; Command.days := 1; Command.chunk_size := 2;
          Command.sleep_time := 0; Command.data_source := None |} w = (Ret tt, w')
     /\ db w' = pruned leftover_store)
  /\ Command.handle "treeherder.mozilla.org" (deleting_cycle_data 3) (guarded_cycle_data 5) 6
       (perfherder_options 365) w
     = PerfherderCycler.cycle (guarded_cycle_data 5) (DataCycler.attributes 365 100 0 (Some false))
         (logged WARNING "Cycling Perfherder data..."
            (logged WARNING "Cycle interval... 365 days" w))
  /\ (exists e,
        Command.handle "treeherder.mozilla.org" (deleting_cycle_data 3)
          (guarded_cycle_data 5) 6 (perfherder_options (-1000000000)) w
        = (Raise e, logged WARNING "Cycle interval... -1000000000 days" w)
        /\ exn_cls e = OverflowError).
Proof.
  cbv zeta. split; [|split].
  - eexists. split.
    + rewrite (proj1 (handle_runs_the_cycler "treeherder.mozilla.org" (deleting_cycle_data 3)
                        (guarded_cycle_data 5) 6
                        {| Command.is_debug := false; Command.days := 1;
                           Command.chunk_size := 2; Command.sleep_time := 0;
                           Command.data_source := None |}
                        (world_at leftover_store (day 0))) eq_refl
                 ltac:(vm_compute; discriminate)).
      vm_compute. reflexivity.
    + vm_compute. reflexivity.
  - apply (proj1 (proj2 (handle_runs_the_cycler "treeherder.mozilla.org"
                           (deleting_cycle_data 3) (guarded_cycle_data 5) 6
                           (perfherder_options 365) (world_at leftover_store (day 0))))).
    + reflexivity.
    + vm_compute. discriminate.
    + left. simpl. lia.
  - apply (proj2 (proj2 (handle_runs_the_cycler "treeherder.mozilla.org"
                           (deleting_cycle_data 3) (guarded_cycle_data 5) 6
                           (perfherder_options (-1000000000))
                           (world_at leftover_store (day 0))))).
    + right. reflexivity.
    + vm_compute. reflexivity.
Defined.

(** X18: the default of [--days], 120, is below the Perfherder floor:
    [from:perfherder] without [--days] raises [ValueError] on every host
    but the prototype one, after the first log line and before anything is
    deleted. *)
Theorem default_days_below_perfherder_floor (SITE_HOSTNAME : string)
  (Job_objects_cycle_data : Z -> Z -> Z -> M world Z)
  (PerformanceDatum_objects_cycle_data : list removal_strategy -> Z -> Z -> M world unit)
  (fuel : nat) (w : world) :
  SITE_HOSTNAME <> prototype_hostname ->
  Command.handle SITE_HOSTNAME Job_objects_cycle_data PerformanceDatum_objects_cycle_data
    fuel (default_options (Some PERFHERDER_SUBCOMMAND)) w
  = (Raise floor_error, logged WARNING "Cycle interval... 120 days" w).
Proof.
  intros Hhost. apply String.eqb_neq in Hhost.
  unfold Command.handle, Command.fabricate_data_cycler, PerfherderCycler.__init__.
  cbn [default_options Command.data_source Command.days Command.chunk_size
       Command.sleep_time Command.is_debug].
  unfold prototype_hostname in Hhost. simpl. unfold bind. simpl. rewrite Hhost. reflexivity.
Qed.

Lemma default_days_below_perfherder_floor_witness :
  Command.handle "treeherder.mozilla.org" failing_cycle_data (guarded_cycle_data 5) 6
    (default_options (Some PERFHERDER_SUBCOMMAND)) (world_at leftover_store (day 0))
  = (Raise floor_error,
     logged WARNING "Cycle interval... 120 days" (world_at leftover_store (day 0))).
Proof.
  apply default_days_below_perfherder_floor. discriminate.
Defined.

(** ** Calling [remove] until nothing is left *)

Lemma filter_delete_limit_length {A : Type} (p : A -> bool) (n : nat) (l : list A) :
  List.length (filter p (delete_limit p n l)) = (List.length (filter p l) - n)%nat.
Proof.
  revert n. induction l as [|x l IH]; intros n; [reflexivity|].
  destruct n as [|n]; [simpl; lia|]. simpl. destruct (p x) eqn:Hx.
  - rewrite IH. simpl. reflexivity.
  - simpl. rewrite Hx. apply IH.
Qed.

Lemma main_remove_returns (self : MainRemovalStrategy.t) (w : world) :
  0 <= MainRemovalStrategy._chunk_size self ->
  (exists r, In r (performance_datum (db w))
             /\ MainRemovalStrategy._max_timestamp self < pd_push_timestamp r) ->
  exists n,
    MainRemovalStrategy.remove self w
    = (Ret tt, snd (record_statement
                      (DELETE_performance_datum None
                         (MainRemovalStrategy._max_timestamp self) n) w))
    /\ 0 <= n <= MainRemovalStrategy._chunk_size self
    /\ (n = 0 -> MainRemovalStrategy._chunk_size self = 0).
Proof.
  intros Hc (r & Hin & Hnew).
  assert (Hsize : exists n, MainRemovalStrategy._find_ideal_chunk_size self w = (Ret n, w)).
  { unfold MainRemovalStrategy._find_ideal_chunk_size, qs_first, qs_slice_to. run_bind.
    destruct (filter_some_cons
                (fun r0 => pd_push_timestamp r0 >? MainRemovalStrategy._max_timestamp self)
                _ r Hin) as (y & rest & Hf).
    { rewrite Z.gtb_ltb. apply Z.ltb_lt. exact Hnew. }
    rewrite Hf. destruct (order_by_cons (fun r0 => - pd_id r0) y rest) as (y' & rest' & Ho).
    rewrite Ho. simpl.
    destruct (MainRemovalStrategy._chunk_size self <? 0) eqn:Hneg;
      [apply Z.ltb_lt in Hneg; lia|].
    simpl. eexists. reflexivity. }
  destruct Hsize as [n Hsize].
  destruct (main_chunk_size_inv _ _ _ _ Hsize) as (_ & Hb & Hz & _).
  exists n. split; [|split; assumption].
  unfold MainRemovalStrategy.remove, bind. rewrite Hsize. unfold cursor_execute.
  destruct (n <? 0) eqn:Hneg; [apply Z.ltb_lt in Hneg; lia|]. reflexivity.
Qed.

Lemma main_remove_calls_invariant (self : MainRemovalStrategy.t) (w : world) (k : nat) :
  0 < MainRemovalStrategy._chunk_size self ->
  (exists r, In r (performance_datum (db w))
             /\ MainRemovalStrategy._max_timestamp self < pd_push_timestamp r) ->
  let p := where_clause None (MainRemovalStrategy._max_timestamp self) in
  let st := remove_calls k (fun _ v => v) (Main self, w) in
  fst st = Main self
  /\ (exists r, In r (performance_datum (db (snd st)))
                /\ MainRemovalStrategy._max_timestamp self < pd_push_timestamp r)
  /\ (List.length (filter p (performance_datum (db (snd st))))
      <= List.length (filter p (performance_datum (db w))) - k)%nat
  /\ (forall r, In r (performance_datum (db w)) -> p r = false ->
                In r (performance_datum (db (snd st)))).
Proof.
  intros Hc Hnewer. cbv zeta. induction k as [|k IH].
  - simpl. split; [reflexivity|]. split; [exact Hnewer|]. split; [lia|]. auto.
  - simpl. destruct (remove_calls k (fun _ v => v) (Main self, w)) as [s1 w1].
    simpl in IH. destruct IH as (-> & Hnew1 & Hlen & Hkeep).
    unfold removal_strategy_remove, on_world. simpl fst. simpl snd.
    destruct (main_remove_returns self w1 ltac:(lia) Hnew1) as (n & Hrun & Hb & Hz).
    rewrite Hrun. simpl. split; [reflexivity|]. split; [|split].
    + destruct Hnew1 as (r & Hin & Hts). exists r. split; [|exact Hts].
      apply delete_limit_keeps; [exact Hin|]. simpl. apply Z.ltb_ge. lia.
    + rewrite filter_delete_limit_length. lia.
    + intros r Hin Hp. apply delete_limit_keeps; [|exact Hp]. apply Hkeep; assumption.
Qed.

(** X19: on a store nobody else writes to, with a positive chunk size and
    a row newer than the cutoff, calling [MainRemovalStrategy.remove] as
    many times as there are rows strictly older than the cutoff deletes
    them all, and every row at or after the cutoff is still there. *)
Theorem main_remove_calls_complete (self : MainRemovalStrategy.t) (w : world) (k : nat) :
  0 < MainRemovalStrategy._chunk_size self ->
  (exists r, In r (performance_datum (db w))
             /\ MainRemovalStrategy._max_timestamp self < pd_push_timestamp r) ->
  (List.length
     (filter (fun r => (pd_push_timestamp r <? MainRemovalStrategy._max_timestamp self)%Z)
        (performance_datum (db w))) <= k)%nat ->
  let after :=
    performance_datum (db (snd (remove_calls k (fun _ v => v) (Main self, w)))) in
  (forall r, In r after -> MainRemovalStrategy._max_timestamp self <= pd_push_timestamp r)
  /\ (forall r, In r (performance_datum (db w)) ->
                MainRemovalStrategy._max_timestamp self <= pd_push_timestamp r ->
                In r after).
Proof.
  intros Hc Hnewer Hk. cbv zeta.
  destruct (main_remove_calls_invariant self w k Hc Hnewer) as (_ & _ & Hlen & Hkeep).
  split.
  - intros r Hin.
    destruct (pd_push_timestamp r <? MainRemovalStrategy._max_timestamp self) eqn:Hold;
      [|apply Z.ltb_ge; exact Hold].
    exfalso.
    assert (Hf : In r (filter (where_clause None (MainRemovalStrategy._max_timestamp self))
                         (performance_datum
                            (db (snd (remove_calls k (fun _ v => v) (Main self, w))))))).
    { apply filter_In. split; [exact Hin|exact Hold]. }
    assert (Hk' : (List.length
                     (filter (where_clause None (MainRemovalStrategy._max_timestamp self))
                        (performance_datum (db w))) <= k)%nat) by exact Hk.
    destruct (filter _ (performance_datum
                          (db (snd (remove_calls k (fun _ v => v) (Main self, w))))))
      as [|x xs]; [destruct Hf|]. simpl in Hlen. lia.
  - intros r Hin Hts. apply Hkeep; [exact Hin|]. simpl. apply Z.ltb_ge. exact Hts.
Qed.

(** Three rows of [mixed_rows] are more than a year old: three calls with
    chunk size 1 leave the four younger rows. *)
Lemma main_remove_calls_complete_witness :
  let self := {| MainRemovalStrategy._cycle_interval := timedelta_days 365;
                 MainRemovalStrategy._chunk_size := 1;
                 MainRemovalStrategy._max_timestamp := day 0 - timedelta_days 365 |} in
  let after :=
    performance_datum
      (db (snd (remove_calls 3 (fun _ v => v)
                  (Main self, world_at (store mixed_rows) (day 0))))) in
  (forall r, In r after -> day 0 - timedelta_days 365 <= pd_push_timestamp r)
  /\ In (datum 4 4 (day (-40))) after.
Proof.
  cbv zeta.
  destruct (main_remove_calls_complete
              {| MainRemovalStrategy._cycle_interval := timedelta_days 365;
                 MainRemovalStrategy._chunk_size := 1;
                 MainRemovalStrategy._max_timestamp := day 0 - timedelta_days 365 |}
              (world_at (store mixed_rows) (day 0)) 3) as [Hgone Hkept].
  - simpl. lia.
  - exists (datum 7 77 (day (-1))). split; [simpl; tauto|vm_compute; reflexivity].
  - vm_compute. lia.
  - split; [exact Hgone|]. apply Hkept; [simpl; tauto|vm_compute; discriminate].
Defined.

(** ** The statements of a whole pruning pass *)

Lemma prune_chunks (fuel : nat) (self : DataCycler.t) (f : Job -> Z) (m : model)
  (w : world) :
  0 < DataCycler.chunk_size self ->
  (List.length (objects m (db w)) <= fuel)%nat ->
  exists w' chunks,
    TreeherderCycler.prune fuel self f m w = (Ret tt, w')
    /\ executed w' = executed w ++ map (DELETE_id__in m) chunks
    /\ List.concat chunks = TreeherderCycler.unused_ids f m (db w)
    /\ Forall (fun ch => 0 < len ch <= DataCycler.chunk_size self) chunks.
Proof.
  intros Hc Hfuel. unfold TreeherderCycler.prune.
  unfold bind at 1. unfold logger_warning at 1, logger_log at 1, modify at 1.
  unfold bind at 1. unfold gets at 1. cbn [db].
  unfold bind at 1. unfold logger_warning at 1, logger_log at 1, modify at 1.
  match goal with
  | |- exists _ _, TreeherderCycler.prune_loop _ _ _ ?s ?w0 = _ /\ _ =>
      destruct (prune_loop_chunks self m Hc fuel s w0)
        as (w' & chunks & Hrun & Hex & Hcat & Hall & _)
  end.
  - simpl. unfold TreeherderCycler.unused_ids. rewrite length_map.
    etransitivity; [apply filter_length_le|exact Hfuel].
  - exists w', chunks. split; [exact Hrun|]. split; [exact Hex|]. split; [exact Hcat|exact Hall].
Qed.

Lemma unused_ids_other_table (f : Job -> Z) (m m' : model) (t : list Ancillary)
  (d : database) :
  m <> m' ->
  TreeherderCycler.unused_ids f m (set_objects m' t d) = TreeherderCycler.unused_ids f m d.
Proof. intros H. destruct m, m'; try contradiction; reflexivity. Qed.

(** X20: with a positive chunk size and enough fuel, one
    [remove_leftovers] pass executes its statements kind after kind, job
    types first, then job groups, then machines; the id lists of each kind
    are chunks of at most the chunk size that concatenate to the
    unreferenced ids of that kind in the store the pass started on. *)
Theorem remove_leftovers_statements (fuel : nat) (self : DataCycler.t) (w : world) :
  0 < DataCycler.chunk_size self ->
  (forall m, (List.length (objects m (db w)) <= fuel)%nat) ->
  exists w' types groups machines,
    TreeherderCycler.remove_leftovers fuel self w = (Ret tt, w')
    /\ executed w'
       = executed w ++ map (DELETE_id__in JobType) types
         ++ map (DELETE_id__in JobGroup) groups ++ map (DELETE_id__in Machine) machines
    /\ List.concat types = TreeherderCycler.unused_ids job_type_id JobType (db w)
    /\ List.concat groups = TreeherderCycler.unused_ids job_group_id JobGroup (db w)
    /\ List.concat machines = TreeherderCycler.unused_ids machine_id Machine (db w)
    /\ Forall (fun ch => 0 < len ch <= DataCycler.chunk_size self)
         (types ++ groups ++ machines).
Proof.
  intros Hc Hfuel. unfold TreeherderCycler.remove_leftovers.
  unfold bind at 1. unfold logger_warning at 1, logger_log at 1, modify at 1.
  match goal with |- exists _ _ _ _, bind _ _ ?w0 = _ /\ _ => set (v0 := w0) end.
  destruct (prune_chunks fuel self job_type_id JobType v0 Hc (Hfuel JobType))
    as (v1 & c1 & H1 & E1 & K1 & A1).
  unfold bind at 1. rewrite H1. apply prune_db in H1 as D1.
  destruct (prune_chunks fuel self job_group_id JobGroup v1 Hc)
    as (v2 & c2 & H2 & E2 & K2 & A2).
  { rewrite D1. exact (Hfuel JobGroup). }
  unfold bind at 1. rewrite H2. apply prune_db in H2 as D2.
  destruct (prune_chunks fuel self machine_id Machine v2 Hc)
    as (v3 & c3 & H3 & E3 & K3 & A3).
  { rewrite D2, D1. exact (Hfuel Machine). }
  exists v3, c1, c2, c3. split; [exact H3|]. split; [|split; [|split; [|split]]].
  - rewrite E3, E2, E1. unfold v0. cbn [executed]. rewrite <- !app_assoc. reflexivity.
  - exact K1.
  - rewrite K2, D1. apply unused_ids_other_table. discriminate.
  - rewrite K3, D2, D1.
    rewrite !unused_ids_other_table by discriminate. reflexivity.
  - apply Forall_app. split; [exact A1|]. apply Forall_app. split; assumption.
Qed.

(** On the store with one job left and chunk size 2: one statement for the
    two orphaned job types, one for the orphaned job group, three for the
    five orphaned machines. *)
Lemma remove_leftovers_statements_witness :
  exists w' types groups machines,
    TreeherderCycler.remove_leftovers 6 (DataCycler.attributes 120 2 0 None)
      (world_at leftover_store (day 0)) = (Ret tt, w')
    /\ executed w'
       = map (DELETE_id__in JobType) types
         ++ map (DELETE_id__in JobGroup) groups ++ map (DELETE_id__in Machine) machines
    /\ List.concat types = [11; 12]
    /\ List.concat groups = [21]
    /\ List.concat machines = [29; 31; 32; 33; 34].
Proof.
  destruct (remove_leftovers_statements 6 (DataCycler.attributes 120 2 0 None)
              (world_at leftover_store (day 0)))
    as (w' & c1 & c2 & c3 & Hrun & Hex & K1 & K2 & K3 & _).
  - simpl. lia.
  - intros []; simpl; lia.
  - exists w', c1, c2, c3. split; [exact Hrun|]. split; [exact Hex|].
    split; [exact K1|]. split; [exact K2|exact K3].
Defined.
